(** * wbify-map: the ride tracker's telemetry aggregation, embedded in Rocq

    The development follows the TypeScript sources:
    - [src/types.ts]      the records [RoutePoint] and [RideStats];
    - [src/utils/geo.ts]  [calculateDistance] and [formatDuration];
    - [src/App.tsx]       the handlers [startRecording], [stopRecording],
                          [handleGetAIAnalysis], the position callback and
                          the one-second interval callback;
    - [src/services/gemini.ts] the figures [getAIAnalysis] puts in its prompt,
                          and what [findNearbyStops] makes of a response;
    - [src/components/RouteVisualizer.tsx] the commands of the drawn path.

    Numbers.  A JavaScript [number] that carries a measurement (degrees,
    metres, metres per second) is read as a real number: rounding, NaN and
    the infinities of IEEE-754 doubles are outside that reading.  A [number]
    that only ever counts (the ride's [duration], incremented by one from
    zero) is a [nat]; epoch milliseconds are integers ([Z]).

    React.  A functional state update [setX (prev => f prev)] is the
    assignment [x := f x]; updates run in program order.  The component's
    [useRef] cells are fields of the same state record.  The browser's side
    is explicit: the registry of geolocation watches and of intervals, from
    which position fixes and timer ticks are dispatched to the callbacks
    registered at that moment.

    The effect on [isRecording] (lines 174-187) is the cleanup
    [Page.effectCleanup]; when it runs relative to the continuation of
    [startRecording] depends on how the page is mounted, which is not in
    [src/], so what is said of the page is said for both kinds of root.

    Double precision.  Where a statement turns on rounding,
    [calculateDistance] is also embedded over binary64 floats
    ([GeoDouble]), with [Math.sin], [Math.cos] and [Math.atan2] left to
    the engine.

    Scope.  The wake lock and the visibility listener are not part of the
    model. *)

From Stdlib Require Floats.
From Stdlib Require Import Reals Lra Lia List String Arith Bool ZArith.
From Stdlib Require Import DecimalString.
Import ListNotations.

Set Implicit Arguments.

(* ================================================================== *)
(** ** src/types.ts *)

Module Types.

Record RoutePoint : Type := mkRoutePoint {
  latitude  : R;
  longitude : R;
  timestamp : Z;
  speed     : R;           (* in m/s *)
  altitude  : option R     (* number | null *)
}.

Record RideStats : Type := mkRideStats {
  totalDistance : R;       (* meters *)
  avgSpeed      : R;       (* m/s *)
  maxSpeed      : R;       (* m/s *)
  duration      : nat;     (* seconds *)
  startTime     : option Z;
  elevationGain : R
}.

Record AIInsight : Type := mkAIInsight {
  title           : string;
  summary         : string;
  recommendations : list string
}.

Record GroundingLink : Type := mkGroundingLink {
  link_title : string;
  uri        : string
}.

End Types.
Export Types.

(* ================================================================== *)
(** ** The JavaScript operators the sources use *)

Module Js.

Open Scope R_scope.

(** [v || 0] on a [number | null]: [null] and [0] are falsy. *)
Definition orZero (v : option R) : R :=
  match v with
  | Some x => if Req_dec_T x 0 then 0 else x
  | None => 0
  end.

(** [Math.atan2 (y, x)], the angle of the point [(x, y)] in (-PI, PI]. *)
Definition atan2 (y x : R) : R :=
  if Rlt_dec 0 x then atan (y / x)
  else if Rlt_dec x 0 then
    (if Rle_dec 0 y then atan (y / x) + PI else atan (y / x) - PI)
  else if Rlt_dec 0 y then PI / 2
  else if Rlt_dec y 0 then - (PI / 2)
  else 0.

(** [Math.max] of two numbers. *)
Definition max (a b : R) : R := Rmax a b.

(** A value of type [string | number], as [formatDuration]'s [map] makes. *)
Inductive StrOrNum : Type :=
  | JsStr (s : string)
  | JsNum (n : nat).

(** [String (n)] for a natural number: its decimal digits. *)
Definition numToString (n : nat) : string :=
  NilEmpty.string_of_uint (Nat.to_uint n).

(** [ToString] as [Array.prototype.join] and [+] with a string apply it. *)
Definition toString (v : StrOrNum) : string :=
  match v with
  | JsStr s => s
  | JsNum n => numToString n
  end.

(** [v !== s] for a string literal [s]: a number is never strictly equal
    to a string. *)
Definition strictNeqStr (v : StrOrNum) (s : string) : bool :=
  match v with
  | JsStr t => negb (String.eqb t s)
  | JsNum _ => true
  end.

(** [Array.prototype.filter] with the element and its index. *)
Fixpoint filterFrom {A : Type} (i : nat) (f : A -> nat -> bool) (l : list A)
  : list A :=
  match l with
  | [] => []
  | x :: r => if f x i then x :: filterFrom (S i) f r else filterFrom (S i) f r
  end.

Definition filteri {A : Type} (f : A -> nat -> bool) (l : list A) : list A :=
  filterFrom 0 f l.

(** [Array.prototype.join]. *)
Fixpoint join (sep : string) (l : list StrOrNum) : string :=
  match l with
  | [] => EmptyString
  | [x] => toString x
  | x :: r => (toString x ++ sep ++ join sep r)%string
  end.

End Js.

(* ================================================================== *)
(** ** src/utils/geo.ts *)

Module Geo.

Open Scope R_scope.

(** The haversine term [a] of [calculateDistance]. *)
Definition haversineA (p1 p2 : RoutePoint) : R :=
  let φ1 := (latitude p1 * PI) / 180 in
  let φ2 := (latitude p2 * PI) / 180 in
  let Δφ := ((latitude p2 - latitude p1) * PI) / 180 in
  let Δλ := ((longitude p2 - longitude p1) * PI) / 180 in
  sin (Δφ / 2) * sin (Δφ / 2) +
  cos φ1 * cos φ2 * sin (Δλ / 2) * sin (Δλ / 2).

Definition calculateDistance (p1 p2 : RoutePoint) : R :=
  let R := 6371e3 in (* metres *)
  let a := haversineA p1 p2 in
  let c := 2 * Js.atan2 (sqrt a) (sqrt (1 - a)) in
  R * c. (* in metres *)

Definition formatDuration (seconds : nat) : string :=
  let h := (seconds / 3600)%nat in
  let m := ((seconds mod 3600) / 60)%nat in
  let s := (seconds mod 60)%nat in
  Js.join ":"
    (Js.filteri (fun v i => Js.strictNeqStr v "00" || (0 <? i)%nat)
       (map (fun v => if (v <? 10)%nat
                      then Js.JsStr ("0" ++ Js.numToString v)
                      else Js.JsNum v)
            [h; m; s])).

(** A component printed with two digits at least, as the [map] step of
    [formatDuration] leaves it once [join] has made it a string. *)
Definition twoDigits (v : nat) : string :=
  if (v <? 10)%nat then ("0" ++ Js.numToString v)%string
  else Js.numToString v.

End Geo.

(* ================================================================== *)
(** ** src/services/gemini.ts: the figures of the advisory request *)

Module Gemini.

Open Scope R_scope.

(** One entry of [sampledRoute], before [toFixed] prints it. *)
Record SampledPoint : Type := mkSampledPoint {
  lat : R;
  lon : R;
  spd : R   (* km/h *)
}.

(** The numbers [getAIAnalysis] interpolates into its prompt, each before
    [toFixed] rounds it for printing. *)
Record Prompt : Type := mkPrompt {
  prompt_distanceKm      : R;
  prompt_avgSpeedKmH     : R;
  prompt_maxSpeedKmH     : R;
  prompt_durationMinutes : R;
  prompt_elevationGainM  : R;
  prompt_sampledRoute    : list SampledPoint
}.

Definition getAIAnalysis_prompt (stats : RideStats) (route : list RoutePoint)
  : Prompt :=
  let sampledRoute :=
    map (fun p => {| lat := latitude p;
                     lon := longitude p;
                     spd := speed p * 3.6 |})
        (Js.filteri (fun _ i => (i mod 5 =? 0)%nat) route) in
  {| prompt_distanceKm      := totalDistance stats / 1000;
     prompt_avgSpeedKmH     := avgSpeed stats * 3.6;
     prompt_maxSpeedKmH     := maxSpeed stats * 3.6;
     prompt_durationMinutes := INR (duration stats) / 60;
     prompt_elevationGainM  := elevationGain stats;
     prompt_sampledRoute    := sampledRoute |}.

End Gemini.

(* ================================================================== *)
(** ** src/App.tsx *)

Module App.

Open Scope R_scope.

(** What the browser hands to the [watchPosition] callback. *)
Record GeolocationCoordinates : Type := mkCoords {
  coords_latitude  : R;
  coords_longitude : R;
  coords_altitude  : option R;   (* number | null *)
  coords_speed     : option R    (* number | null *)
}.

Record GeolocationPosition : Type := mkPosition {
  coords       : GeolocationCoordinates;
  pos_timestamp : Z
}.

(** Effects a handler has on the world outside the component. *)
Inductive Effect : Type :=
  | Alert (msg : string)
  | ConsoleError
  | CallGetAIAnalysis (stats : RideStats) (route : list RoutePoint).

Record NearbyStops : Type := mkNearbyStops {
  stops_text  : string;
  stops_links : list GroundingLink
}.

(** The component's [useState] and [useRef] cells, and the browser's
    registries the handlers register callbacks in. *)
Record State : Type := mkState {
  (* useState *)
  isRecording  : bool;
  route        : list RoutePoint;
  stats        : RideStats;
  aiInsight    : option AIInsight;
  nearbyStops  : option NearbyStops;
  isLoadingAI  : bool;
  (* useRef *)
  watchIdRef   : option nat;
  lastPointRef : option RoutePoint;
  timerRef     : option nat;
  (* the browser *)
  geolocation  : bool;       (* is [navigator.geolocation] there *)
  watches      : list nat;   (* ids of the registered position watches *)
  intervals    : list nat;   (* ids of the registered intervals *)
  nextWatchId  : nat;
  nextTimerId  : nat
}.

Definition initialStats : RideStats :=
  {| totalDistance := 0;
     avgSpeed := 0;
     maxSpeed := 0;
     duration := 0;
     startTime := None;
     elevationGain := 0 |}.

(** The state of the freshly mounted component.  Ids handed out by
    [watchPosition] and [setInterval] are positive. *)
Definition initialState (geo : bool) : State :=
  {| isRecording := false;
     route := [];
     stats := initialStats;
     aiInsight := None;
     nearbyStops := None;
     isLoadingAI := false;
     watchIdRef := None;
     lastPointRef := None;
     timerRef := None;
     geolocation := geo;
     watches := [];
     intervals := [];
     nextWatchId := 1;
     nextTimerId := 1 |}.

(** *** Field updates *)

Definition setIsRecording (b : bool) (s : State) : State :=
  mkState b (route s) (stats s) (aiInsight s) (nearbyStops s) (isLoadingAI s)
    (watchIdRef s) (lastPointRef s) (timerRef s)
    (geolocation s) (watches s) (intervals s) (nextWatchId s) (nextTimerId s).

Definition setRoute (f : list RoutePoint -> list RoutePoint) (s : State) : State :=
  mkState (isRecording s) (f (route s)) (stats s) (aiInsight s) (nearbyStops s)
    (isLoadingAI s) (watchIdRef s) (lastPointRef s) (timerRef s)
    (geolocation s) (watches s) (intervals s) (nextWatchId s) (nextTimerId s).

Definition setStats (f : RideStats -> RideStats) (s : State) : State :=
  mkState (isRecording s) (route s) (f (stats s)) (aiInsight s) (nearbyStops s)
    (isLoadingAI s) (watchIdRef s) (lastPointRef s) (timerRef s)
    (geolocation s) (watches s) (intervals s) (nextWatchId s) (nextTimerId s).

Definition setAiInsight (v : option AIInsight) (s : State) : State :=
  mkState (isRecording s) (route s) (stats s) v (nearbyStops s)
    (isLoadingAI s) (watchIdRef s) (lastPointRef s) (timerRef s)
    (geolocation s) (watches s) (intervals s) (nextWatchId s) (nextTimerId s).

Definition setNearbyStops (v : option NearbyStops) (s : State) : State :=
  mkState (isRecording s) (route s) (stats s) (aiInsight s) v
    (isLoadingAI s) (watchIdRef s) (lastPointRef s) (timerRef s)
    (geolocation s) (watches s) (intervals s) (nextWatchId s) (nextTimerId s).

Definition setIsLoadingAI (b : bool) (s : State) : State :=
  mkState (isRecording s) (route s) (stats s) (aiInsight s) (nearbyStops s)
    b (watchIdRef s) (lastPointRef s) (timerRef s)
    (geolocation s) (watches s) (intervals s) (nextWatchId s) (nextTimerId s).

Definition setWatchIdRef (v : option nat) (s : State) : State :=
  mkState (isRecording s) (route s) (stats s) (aiInsight s) (nearbyStops s)
    (isLoadingAI s) v (lastPointRef s) (timerRef s)
    (geolocation s) (watches s) (intervals s) (nextWatchId s) (nextTimerId s).

Definition setLastPointRef (v : option RoutePoint) (s : State) : State :=
  mkState (isRecording s) (route s) (stats s) (aiInsight s) (nearbyStops s)
    (isLoadingAI s) (watchIdRef s) v (timerRef s)
    (geolocation s) (watches s) (intervals s) (nextWatchId s) (nextTimerId s).

Definition setTimerRef (v : option nat) (s : State) : State :=
  mkState (isRecording s) (route s) (stats s) (aiInsight s) (nearbyStops s)
    (isLoadingAI s) (watchIdRef s) (lastPointRef s) v
    (geolocation s) (watches s) (intervals s) (nextWatchId s) (nextTimerId s).

(** *** The browser's registries *)

(** [navigator.geolocation.watchPosition (callback)]: registers the callback
    and returns its id.  The component registers one callback only, so the
    registry keeps the ids. *)
Definition watchPosition (s : State) : nat * State :=
  let id := nextWatchId s in
  (id,
   mkState (isRecording s) (route s) (stats s) (aiInsight s) (nearbyStops s)
     (isLoadingAI s) (watchIdRef s) (lastPointRef s) (timerRef s)
     (geolocation s) (watches s ++ [id]) (intervals s) (S id) (nextTimerId s)).

Definition clearWatch (id : nat) (s : State) : State :=
  mkState (isRecording s) (route s) (stats s) (aiInsight s) (nearbyStops s)
    (isLoadingAI s) (watchIdRef s) (lastPointRef s) (timerRef s)
    (geolocation s) (filter (fun w => negb (w =? id)%nat) (watches s))
    (intervals s) (nextWatchId s) (nextTimerId s).

(** [window.setInterval (callback, 1000)]. *)
Definition setInterval (s : State) : nat * State :=
  let id := nextTimerId s in
  (id,
   mkState (isRecording s) (route s) (stats s) (aiInsight s) (nearbyStops s)
     (isLoadingAI s) (watchIdRef s) (lastPointRef s) (timerRef s)
     (geolocation s) (watches s) (intervals s ++ [id]) (nextWatchId s) (S id)).

Definition clearInterval (id : nat) (s : State) : State :=
  mkState (isRecording s) (route s) (stats s) (aiInsight s) (nearbyStops s)
    (isLoadingAI s) (watchIdRef s) (lastPointRef s) (timerRef s)
    (geolocation s) (watches s)
    (filter (fun t => negb (t =? id)%nat) (intervals s))
    (nextWatchId s) (nextTimerId s).

(** *** The handlers *)

(** Lines 67-126.  [requestWakeLock] only touches the wake-lock cell, which
    is not modelled. *)
Definition startRecording (now : Z) (s : State) : State * list Effect :=
  if negb (geolocation s) then
    (s, [Alert "Geolocation is not supported by your browser."])
  else
    let s := setIsRecording true s in
    let s := setRoute (fun _ => []) s in
    let s := setStats (fun _ =>
               {| totalDistance := 0;
                  avgSpeed := 0;
                  maxSpeed := 0;
                  duration := 0;
                  startTime := Some now;
                  elevationGain := 0 |}) s in
    let s := setAiInsight None s in
    let s := setNearbyStops None s in
    let '(id, s) := watchPosition s in
    let s := setWatchIdRef (Some id) s in
    let '(tid, s) := setInterval s in
    let s := setTimerRef (Some tid) s in
    (s, []).

(** Lines 91-97: the route point built from a position fix. *)
Definition newPointOf (position : GeolocationPosition) : RoutePoint :=
  {| latitude  := coords_latitude (coords position);
     longitude := coords_longitude (coords position);
     timestamp := pos_timestamp position;
     speed     := Js.orZero (coords_speed (coords position));
     altitude  := coords_altitude (coords position) |}.

(** Lines 90-118: the success callback given to [watchPosition]. *)
Definition onPosition (position : GeolocationPosition) (s : State) : State :=
  let newPoint := newPointOf position in
  let s := setRoute (fun prev => prev ++ [newPoint]) s in
  let s :=
    match lastPointRef s with
    | Some lastPoint =>
        let distance := Geo.calculateDistance lastPoint newPoint in
        let elev := Js.orZero (altitude newPoint)
                    - Js.orZero (altitude lastPoint) in
        setStats (fun prev =>
          let newDist := totalDistance prev + distance in
          let newMaxSpd := Js.max (maxSpeed prev) (speed newPoint) in
          let newElev := if Rlt_dec 0 elev
                         then elevationGain prev + elev
                         else elevationGain prev in
          {| totalDistance := newDist;
             avgSpeed := avgSpeed prev;
             maxSpeed := newMaxSpd;
             duration := duration prev;
             startTime := startTime prev;
             elevationGain := newElev |}) s
    | None => s
    end in
  setLastPointRef (Some newPoint) s.

(** Lines 123-125: the interval callback. *)
Definition onTick (s : State) : State :=
  setStats (fun prev =>
    {| totalDistance := totalDistance prev;
       avgSpeed := avgSpeed prev;
       maxSpeed := maxSpeed prev;
       duration := duration prev + 1;
       startTime := startTime prev;
       elevationGain := elevationGain prev |}) s.

(** Lines 128-140.  [watchIdRef.current !== null] is a test against [null];
    [if (timerRef.current)] is a truthiness test, which the id [0] fails.
    [releaseWakeLock] only touches the wake-lock cell. *)
Definition stopRecording (s : State) : State :=
  let s :=
    match watchIdRef s with
    | Some id => setWatchIdRef None (clearWatch id s)
    | None => s
    end in
  let s :=
    match timerRef s with
    | Some (S _ as id) => setTimerRef None (clearInterval id s)
    | _ => s
    end in
  let s := setIsRecording false s in
  setLastPointRef None s.

(** Lines 142-157.  The call to [getAIAnalysis] is the external one; its
    outcome is the argument [response] ([None]: the promise was rejected). *)
Definition handleGetAIAnalysis (response : option AIInsight) (s : State)
  : State * list Effect :=
  if (List.length (route s) <? 5)%nat then
    (s, [Alert "Ride longer to get meaningful AI insights!"])
  else
    let call := CallGetAIAnalysis (stats s) (route s) in
    let s := setIsLoadingAI true s in
    match response with
    | Some insight =>
        (setIsLoadingAI false (setAiInsight (Some insight) s), [call])
    | None =>
        (setIsLoadingAI false s,
         [call; ConsoleError; Alert "Failed to generate AI insights."])
    end.

(** Line 190: the average speed the stats card shows, before [toFixed]. *)
Definition avgSpeedKmH (s : State) : R :=
  if (0 <? duration (stats s))%nat
  then (totalDistance (stats s) / INR (duration (stats s))) * 3.6
  else 0.

(** *** Events *)

Inductive Event : Type :=
  | ClickStart (now : Z)                        (* the play button *)
  | ClickStop                                   (* the stop button *)
  | Fix (position : GeolocationPosition)        (* the position source *)
  | FixError                                    (* a failed GPS read *)
  | Tick                                        (* one second passes *)
  | ClickAnalyze (response : option AIInsight). (* an analysis button *)

(** A fix is handed to the callback of every watch registered just then. *)
Definition dispatchFix (position : GeolocationPosition) (s : State) : State :=
  fold_left (fun s _ => onPosition position s) (watches s) s.

(** After one second every registered interval fires once. *)
Definition dispatchTick (s : State) : State :=
  fold_left (fun s _ => onTick s) (intervals s) s.

(** What one event runs: a click its handler, with the continuation of a
    start run to its end, a fix or a second the callbacks registered.  The
    effect on [isRecording] is not run here; see [Page]. *)
Definition step (e : Event) (s : State) : State * list Effect :=
  match e with
  | ClickStart now => startRecording now s
  | ClickStop => (stopRecording s, [])
  | Fix position => (dispatchFix position s, [])
  | FixError => (s, map (fun _ => ConsoleError) (watches s))
  | Tick => (dispatchTick s, [])
  | ClickAnalyze response => handleGetAIAnalysis response s
  end.

Definition next (e : Event) (s : State) : State := fst (step e s).

Definition run (es : list Event) (s : State) : State :=
  fold_left (fun s e => next e s) es s.

(** What the rendered page lets happen (lines 247-266 and 311-325): the play
    button is there while not recording, the stop button while recording;
    "Refresh Analysis" whenever an insight is shown, "Analyze My Ride"
    otherwise and then disabled while recording, loading or with fewer
    than 5 points.  Fixes, errors and ticks come from the browser.  A
    second press of the play button before the first start has set
    [isRecording] is not among these; see [Page.overlappingStarts]. *)
Definition offered (s : State) (e : Event) : bool :=
  match e with
  | ClickStart _ => negb (isRecording s)
  | ClickStop => isRecording s
  | ClickAnalyze _ =>
      match aiInsight s with
      | Some _ => true
      | None => negb (isRecording s || (List.length (route s) <? 5)%nat
                      || isLoadingAI s)
      end
  | Fix _ | FixError | Tick => true
  end.

(** The states these steps lead to from the initial one. *)
Inductive reachable (geo : bool) : State -> Prop :=
  | reachable_init : reachable geo (initialState geo)
  | reachable_step : forall s e,
      reachable geo s -> offered s e = true -> reachable geo (next e s).

(** *** Notions the claims are stated with *)

(** The stats a start leaves behind. *)
Definition resetStats (now : Z) : RideStats :=
  {| totalDistance := 0;
     avgSpeed := 0;
     maxSpeed := 0;
     duration := 0;
     startTime := Some now;
     elevationGain := 0 |}.

(** The last point of a route, if it has one. *)
Fixpoint lastOf (l : list RoutePoint) : option RoutePoint :=
  match l with
  | [] => None
  | [p] => Some p
  | _ :: r => lastOf r
  end.

(** The events of a recording session: what the browser delivers between
    a start and the next stop. *)
Definition isSessionEvent (e : Event) : bool :=
  match e with
  | Fix _ | FixError | Tick => true
  | ClickStart _ | ClickStop | ClickAnalyze _ => false
  end.

(** The fixes among a list of events, in order of arrival. *)
Fixpoint fixes (es : list Event) : list GeolocationPosition :=
  match es with
  | [] => []
  | Fix position :: r => position :: fixes r
  | _ :: r => fixes r
  end.

(** A position fix at the given place and altitude. *)
Definition fixAt (la lo : R) (alt : option R) (spd : option R)
  : GeolocationPosition :=
  {| coords := {| coords_latitude := la; coords_longitude := lo;
                  coords_altitude := alt; coords_speed := spd |};
     pos_timestamp := 0 |}.

(** *** Rides used as examples *)

(** A ride of one fix, still recording. *)
Definition openRide : list Event :=
  [ClickStart 0; Fix (fixAt 0 0 (Some 100) None)].

End App.

(* ================================================================== *)
(** ** src/services/gemini.ts: [findNearbyStops] *)

Module GeminiStops.

(** The part of the service's response [findNearbyStops] reads.  Every
    property reached through [?.] may be missing. *)
Record GroundingChunkWeb : Type := mkWeb {
  web_title : option string;
  web_uri   : option string
}.

Record GroundingChunk : Type := mkChunk {
  web : option GroundingChunkWeb
}.

Record GroundingMetadata : Type := mkMetadata {
  groundingChunks : option (list GroundingChunk)
}.

Record Candidate : Type := mkCandidate {
  groundingMetadata : option GroundingMetadata
}.

Record GenerateContentResponse : Type := mkResponse {
  text       : string;
  candidates : option (list Candidate)
}.

(** [v || d] on a [string | undefined]: [undefined] and the empty string
    are falsy. *)
Definition orString (v : option string) (d : string) : string :=
  match v with
  | Some EmptyString => d
  | Some s => s
  | None => d
  end.

(** [chunk.web?.title] and [chunk.web?.uri]. *)
Definition chunkTitle (chunk : GroundingChunk) : option string :=
  match web chunk with
  | Some w => web_title w
  | None => None
  end.

Definition chunkUri (chunk : GroundingChunk) : option string :=
  match web chunk with
  | Some w => web_uri w
  | None => None
  end.

(** [response.candidates?.[0]?.groundingMetadata?.groundingChunks]. *)
Definition firstChunks (response : GenerateContentResponse)
  : option (list GroundingChunk) :=
  match candidates response with
  | Some (c :: _) =>
      match groundingMetadata c with
      | Some m => groundingChunks m
      | None => None
      end
  | _ => None
  end.

(** Lines 62-71: what [findNearbyStops] makes of the response.  An array,
    even an empty one, is truthy, so [|| []] only replaces [undefined]. *)
Definition findNearbyStops_result (response : GenerateContentResponse)
  : App.NearbyStops :=
  let links :=
    match firstChunks response with
    | Some chunks =>
        map (fun chunk =>
               {| link_title := orString (chunkTitle chunk) "Search Result";
                  uri := orString (chunkUri chunk) "#" |})
            chunks
    | None => []
    end in
  {| App.stops_text := text response;
     App.stops_links := links |}.

End GeminiStops.

(* ================================================================== *)
(** ** src/App.tsx: [handleFindNearby] and the speed shown *)

Module AppStops.

Import App.
Open Scope R_scope.

(** The component's state with the cell [isLoadingStops] beside it. *)
Record StopsState : Type := mkStopsState {
  app            : State;
  isLoadingStops : bool
}.

Inductive StopsEffect : Type :=
  | CallFindNearbyStops (lat lon : R)
  | StopsConsoleError
  | StopsAlert (msg : string).

(** Lines 159-172.  The call to [findNearbyStops] is the external one; its
    outcome is the argument [response] ([None]: the promise was rejected).
    [route[route.length - 1]] is there whenever the route is not empty. *)
Definition handleFindNearby
  (response : option GeminiStops.GenerateContentResponse) (s : StopsState)
  : StopsState * list StopsEffect :=
  if (List.length (route (app s)) =? 0)%nat then (s, [])
  else
    match nth_error (route (app s)) (List.length (route (app s)) - 1) with
    | Some last =>
        let call := CallFindNearbyStops (latitude last) (longitude last) in
        match response with
        | Some r =>
            ({| app := setNearbyStops
                         (Some (GeminiStops.findNearbyStops_result r)) (app s);
                isLoadingStops := false |},
             [call])
        | None =>
            ({| app := app s; isLoadingStops := false |},
             [call; StopsConsoleError;
              StopsAlert "Failed to find nearby stops."])
        end
    | None => (s, [])
    end.

(** Line 189: the current speed the stats card shows, before [toFixed];
    [None] stands for the literal "0.0" of an empty route. *)
Definition currentSpeedKmH (s : State) : option R :=
  if (0 <? List.length (route s))%nat
  then match nth_error (route s) (List.length (route s) - 1) with
       | Some last => Some (speed last * 3.6)
       | None => None
       end
  else None.

(** The number of ticks among a list of events. *)
Fixpoint ticks (es : list Event) : nat :=
  match es with
  | [] => 0
  | Tick :: r => S (ticks r)
  | _ :: r => ticks r
  end.

End AppStops.

(* ================================================================== *)
(** ** src/components/RouteVisualizer.tsx: the path of the route *)

Module RouteVisualizer.

Open Scope R_scope.

(** [d || 1] on a number: [0] is falsy. *)
Definition orOne (d : R) : R := if Req_dec_T d 0 then 1 else d.

(** [Math.min (...l)] and [Math.max (...l)] of a list that is not empty
    (of an empty one they are the infinities, which the component never
    asks for). *)
Definition mathMin (l : list R) : R :=
  match l with
  | [] => 0
  | x :: r => fold_left Rmin r x
  end.

Definition mathMax (l : list R) : R :=
  match l with
  | [] => 0
  | x :: r => fold_left Rmax r x
  end.

Inductive PathCommand : Type := M | L.

(** One command of the path, before its numbers are printed. *)
Record PathSegment : Type := mkSegment {
  command : PathCommand;
  seg_x   : R;
  seg_y   : R
}.

(** [Array.prototype.map] with the element and its index. *)
Fixpoint mapFrom {A B : Type} (i : nat) (f : A -> nat -> B) (l : list A)
  : list B :=
  match l with
  | [] => []
  | x :: r => f x i :: mapFrom (S i) f r
  end.

Definition padding : R := 20.
Definition width : R := 300.
Definition height : R := 300.

(** Lines 10-32: the commands [svgPath] joins, [[]] for the empty string. *)
Definition svgPath (route : list RoutePoint) : list PathSegment :=
  if (List.length route <? 2)%nat then []
  else
    let lats := map latitude route in
    let lngs := map longitude route in
    let minLat := mathMin lats in
    let maxLat := mathMax lats in
    let minLng := mathMin lngs in
    let maxLng := mathMax lngs in
    let scaleX := fun val =>
      padding + ((val - minLng) / orOne (maxLng - minLng))
                * (width - 2 * padding) in
    let scaleY := fun val =>
      height - (padding + ((val - minLat) / orOne (maxLat - minLat))
                          * (height - 2 * padding)) in
    mapFrom 0 (fun p i =>
                 let x := scaleX (longitude p) in
                 let y := scaleY (latitude p) in
                 {| command := if (i =? 0)%nat then M else L;
                    seg_x := x;
                    seg_y := y |})
            route.

End RouteVisualizer.

(* ================================================================== *)
(** ** src/App.tsx: the effect on [isRecording], and when it runs *)

Module Page.

Import App.

(** Lines 181-186: the cleanup returned by the effect of lines 174-187,
    whose dependency is [isRecording].  React runs it when [isRecording]
    differs between two renders.  Both tests are truthiness tests, which
    [null] and the id [0] fail, and the refs are left as they are.
    [releaseWakeLock] only touches the wake-lock cell. *)
Definition effectCleanup (s : State) : State :=
  let s :=
    match watchIdRef s with
    | Some (S _ as id) => clearWatch id s
    | _ => s
    end in
  match timerRef s with
  | Some (S _ as id) => clearInterval id s
  | _ => s
  end.

(** How the page is mounted decides when that cleanup sees the refs.  The
    continuation of [startRecording] runs after an [await], outside any
    React event handler.  On a legacy root [setIsRecording (true)] renders
    at once, and the cleanup runs before line 89 assigns the refs; on a
    concurrent root the updates of the continuation are batched, and the
    cleanup runs after it has assigned them. *)
Inductive Root : Type := LegacyRoot | ConcurrentRoot.


(** Two presses of the play button while not recording, the second before
    the first has passed its [await] (lines 74-76: [isRecording] is set
    after it, and the button is shown on [!isRecording]); both
    continuations then run one after the other, with no render of a
    concurrent root falling between them. *)
Definition overlappingStarts (root : Root) (a b : Z) (s : State) : State :=
  match root with
  | LegacyRoot =>
      fst (startRecording b (fst (startRecording a (effectCleanup s))))
  | ConcurrentRoot =>
      effectCleanup (fst (startRecording b (fst (startRecording a s))))
  end.




End Page.

(* ================================================================== *)
(** ** Notions the statements are written with *)

Module Notions.

Import App.
Open Scope R_scope.

(** A number that may be missing, read as 0 when it is. *)
Definition numberOrZero (v : option R) : R :=
  match v with
  | Some x => x
  | None => 0
  end.

(** The route point a position fix stands for: its coordinates, timestamp
    and altitude, and its speed or 0. *)
Definition sampleOf (position : GeolocationPosition) : RoutePoint :=
  {| latitude  := coords_latitude (coords position);
     longitude := coords_longitude (coords position);
     timestamp := pos_timestamp position;
     speed     := numberOrZero (coords_speed (coords position));
     altitude  := coords_altitude (coords position) |}.

(** The position callback run on a sequence of fixes, in order. *)
Definition ingestAll (positions : list GeolocationPosition) (s : State)
  : State :=
  fold_left (fun s position => onPosition position s) positions s.

(** The sum of the strictly positive steps of a sequence of altitudes, the
    first step being taken from [previous] when there is one. *)
Fixpoint climbFrom (previous : option R) (altitudes : list R) : R :=
  match altitudes with
  | [] => 0
  | a :: r =>
      match previous with
      | Some q => if Rlt_dec 0 (a - q) then a - q else 0
      | None => 0
      end + climbFrom (Some a) r
  end.

(** Degrees to radians, and the haversine of an angle. *)
Definition radians (degrees : R) : R := degrees * PI / 180.

Definition hav (angle : R) : R := sin (angle / 2) * sin (angle / 2).

(** The great-circle distance between two places given by latitude and
    longitude in degrees, on a sphere of radius 6371000 m: the haversine
    formula in its arcsine form. *)
Definition greatCircle (lat1 lon1 lat2 lon2 : R) : R :=
  2 * 6371000
  * asin (sqrt (hav (radians lat2 - radians lat1)
                + cos (radians lat1) * cos (radians lat2)
                  * hav (radians lon2 - radians lon1))).

(** The sum of the great-circle distances between consecutive places, the
    first taken from [previous] when there is one. *)
Fixpoint pathFrom (previous : option (R * R)) (places : list (R * R)) : R :=
  match places with
  | [] => 0
  | p :: r =>
      match previous with
      | Some q => greatCircle (fst q) (snd q) (fst p) (snd p)
      | None => 0
      end + pathFrom (Some p) r
  end.

(** Where a route point and a position fix are. *)
Definition placeOfPoint (p : RoutePoint) : R * R :=
  (latitude p, longitude p).

Definition placeOfFix (position : GeolocationPosition) : R * R :=
  (coords_latitude (coords position), coords_longitude (coords position)).

End Notions.

(* ================================================================== *)
(** ** src/utils/geo.ts in double precision *)

Module GeoDouble.

Import Floats.PrimFloat.
Open Scope float_scope.

(** [Math.PI]: 3.141592653589793. *)
Definition PI : float := 0x1.921fb54442d18p+1.

Section Engine.

(** [Math.sin], [Math.cos] and [Math.atan2], whose results the language
    leaves to the engine; [+], [-], [*], [/] and [Math.sqrt] are the
    IEEE-754 operations. *)
Variables (sin cos : float -> float) (atan2 : float -> float -> float).

Definition haversineA (lat1 lon1 lat2 lon2 : float) : float :=
  let φ1 := (lat1 * PI) / 180 in
  let φ2 := (lat2 * PI) / 180 in
  let Δφ := ((lat2 - lat1) * PI) / 180 in
  let Δλ := ((lon2 - lon1) * PI) / 180 in
  sin (Δφ / 2) * sin (Δφ / 2) +
  cos φ1 * cos φ2 * sin (Δλ / 2) * sin (Δλ / 2).

Definition calculateDistance (lat1 lon1 lat2 lon2 : float) : float :=
  let R := 6371e3 in (* metres *)
  let a := haversineA lat1 lon1 lat2 lon2 in
  let c := 2 * atan2 (sqrt a) (sqrt (1 - a)) in
  R * c. (* in metres *)

End Engine.

(** App.tsx line 106: [prev.totalDistance + distance]. *)
Definition newDist (totalDistance distance : float) : float :=
  totalDistance + distance.

(** The arguments [calculateDistance] passes to the engine for the points
    (8, -180) and (-8, 0), and the doubles nearest to their sines and
    cosines. *)
Definition eightDegrees : float := 0x1.1df46a2529d39p-3.    (* 0.13962634015954636 *)
Definition quarterTurn : float := 0x1.921fb54442d18p+0.     (* 1.5707963267948966 *)
Definition sinEightDegrees : float := 0x1.1d06c968d9e19p-3. (* 0.13917310096006544 *)
Definition cosEightDegrees : float := 0x1.fb046a930947ap-1. (* 0.9902680687415704 *)

(** What an engine answers at these arguments: the doubles nearest to the
    sine and the cosine, and NaN from [Math.atan2] when its second argument
    is NaN. *)
Definition answersAtEightDegrees
  (sin cos : float -> float) (atan2 : float -> float -> float) : Prop :=
  sin (- eightDegrees) = - sinEightDegrees
  /\ sin quarterTurn = 1
  /\ cos eightDegrees = cosEightDegrees
  /\ cos (- eightDegrees) = cosEightDegrees
  /\ forall y, atan2 y nan = nan.

(** An engine that answers as above at those arguments. *)
Definition tableSin (x : float) : float :=
  if x =? - eightDegrees then - sinEightDegrees
  else if x =? quarterTurn then 1
  else x.

Definition tableCos (x : float) : float :=
  if abs x =? eightDegrees then cosEightDegrees else 1.

Definition tableAtan2 (y x : float) : float :=
  if is_nan x then nan else if is_nan y then nan else y / x.

End GeoDouble.

(* ================================================================== *)
(** ** Facts about the JavaScript operators *)

Section JsFacts.

Open Scope R_scope.

Lemma orZero_Some (x : R) : Js.orZero (Some x) = x.
Proof.
  unfold Js.orZero. destruct (Req_dec_T x 0) as [E | _]; [now rewrite E | reflexivity].
Qed.

Lemma atan_nonneg (x : R) : 0 <= x -> 0 <= atan x.
Proof.
  intros [Hx | <-].
  - left. rewrite <- atan_0. now apply atan_increasing.
  - rewrite atan_0. apply Rle_refl.
Qed.

Lemma atan2_0_pos (x : R) : 0 < x -> Js.atan2 0 x = 0.
Proof.
  intros Hx. unfold Js.atan2.
  destruct (Rlt_dec 0 x) as [_ | N]; [| contradiction].
  unfold Rdiv. rewrite Rmult_0_l. apply atan_0.
Qed.

Lemma atan2_nonneg (y x : R) : 0 <= y -> 0 <= x -> 0 <= Js.atan2 y x.
Proof.
  intros Hy Hx. unfold Js.atan2.
  destruct (Rlt_dec 0 x) as [Px | Nx].
  - apply atan_nonneg. apply Rmult_le_pos; [assumption |].
    left. now apply Rinv_0_lt_compat.
  - destruct (Rlt_dec x 0) as [Lx | _]; [lra |].
    pose proof PI_RGT_0.
    destruct (Rlt_dec 0 y); [lra |].
    destruct (Rlt_dec y 0); lra.
Qed.

Lemma atan2_pos (y x : R) : 0 < y -> 0 <= x -> 0 < Js.atan2 y x.
Proof.
  intros Hy Hx. unfold Js.atan2.
  destruct (Rlt_dec 0 x) as [Px | Nx].
  - rewrite <- atan_0. apply atan_increasing.
    apply Rmult_lt_0_compat; [assumption | now apply Rinv_0_lt_compat].
  - destruct (Rlt_dec x 0) as [Lx | _]; [lra |].
    pose proof PI_RGT_0.
    destruct (Rlt_dec 0 y); lra.
Qed.

End JsFacts.

(* ================================================================== *)
(** ** Facts about src/utils/geo.ts *)

Section GeoFacts.

Open Scope R_scope.

(** The trigonometric core of the bound on the haversine term. *)
Lemma haversine_core (x y l : R) :
  let a := sin ((y - x) / 2) * sin ((y - x) / 2)
           + cos x * cos y * sin l * sin l in
  0 <= a <= 1.
Proof.
  intros a.
  assert (Ha : 2 * a = 1 - (sin x * sin y + (1 - 2 * (sin l * sin l)) * (cos x * cos y))).
  { unfold a.
    pose proof (cos_2a_sin ((y - x) / 2)) as D.
    replace (2 * ((y - x) / 2)) with (y - x) in D by field.
    rewrite cos_minus in D. lra. }
  pose proof (sin2_cos2 x) as Px. pose proof (sin2_cos2 y) as Py.
  pose proof (sin2_cos2 l) as Pl. unfold Rsqr in Px, Py, Pl.
  set (t := 1 - 2 * (sin l * sin l)) in *.
  assert (Ht : t * t <= 1).
  { unfold t. nra. }
  assert (Hc : (t * cos y) * (t * cos y) <= cos y * cos y).
  { nra. }
  split.
  - pose proof (Rle_0_sqr (sin x - sin y)) as Q1.
    pose proof (Rle_0_sqr (cos x - t * cos y)) as Q2.
    unfold Rsqr in Q1, Q2. nra.
  - pose proof (Rle_0_sqr (sin x + sin y)) as Q1.
    pose proof (Rle_0_sqr (cos x + t * cos y)) as Q2.
    unfold Rsqr in Q1, Q2. nra.
Qed.

(** Over the reals the haversine term lies in [0, 1] for any coordinates,
    so both square roots of [calculateDistance] are taken of non-negative
    numbers. *)
Lemma haversineA_bounds (p1 p2 : RoutePoint) :
  0 <= Geo.haversineA p1 p2 <= 1.
Proof.
  unfold Geo.haversineA. cbv zeta.
  replace ((latitude p2 - latitude p1) * PI / 180)
    with (latitude p2 * PI / 180 - latitude p1 * PI / 180) by field.
  pose proof (haversine_core (latitude p1 * PI / 180) (latitude p2 * PI / 180)
                (((longitude p2 - longitude p1) * PI) / 180 / 2)) as H.
  cbv zeta in H. lra.
Qed.

Lemma calculateDistance_nonneg (p1 p2 : RoutePoint) :
  0 <= Geo.calculateDistance p1 p2.
Proof.
  unfold Geo.calculateDistance. cbv zeta.
  pose proof (atan2_nonneg (sqrt_pos (Geo.haversineA p1 p2))
                           (sqrt_pos (1 - Geo.haversineA p1 p2))).
  nra.
Qed.

Lemma calculateDistance_pos (p1 p2 : RoutePoint) :
  0 < Geo.haversineA p1 p2 -> 0 < Geo.calculateDistance p1 p2.
Proof.
  intros Ha. unfold Geo.calculateDistance. cbv zeta.
  pose proof (atan2_pos (sqrt_lt_R0 _ Ha)
                        (sqrt_pos (1 - Geo.haversineA p1 p2))).
  nra.
Qed.

Lemma haversineA_same (p : RoutePoint) : Geo.haversineA p p = 0.
Proof.
  unfold Geo.haversineA. cbv zeta.
  replace ((latitude p - latitude p) * PI / 180 / 2) with 0 by field.
  replace ((longitude p - longitude p) * PI / 180 / 2) with 0 by field.
  rewrite sin_0. ring.
Qed.

Lemma calculateDistance_same (p : RoutePoint) : Geo.calculateDistance p p = 0.
Proof.
  unfold Geo.calculateDistance. cbv zeta.
  rewrite haversineA_same, Rminus_0_r, sqrt_0, sqrt_1.
  rewrite atan2_0_pos by lra. ring.
Qed.

End GeoFacts.

(* ================================================================== *)
(** ** Facts about src/App.tsx *)

(** Replace [next e s] by the handler the event [e] runs. *)
Ltac enter_step := unfold App.next; cbn [App.step fst].

Section AppFacts.

Import App.
Open Scope R_scope.

Lemma fold_left_preserves (A B : Type) (P : A -> Prop) (f : A -> B -> A)
  (l : list B) :
  (forall a b, P a -> P (f a b)) -> forall a, P a -> P (fold_left f l a).
Proof.
  intros Hf. induction l as [| b l IH]; simpl; auto.
Qed.

Lemma run_cons (e : Event) (es : list Event) (s : State) :
  run (e :: es) s = run es (next e s).
Proof. reflexivity. Qed.

Lemma lastOf_snoc (l : list RoutePoint) (p : RoutePoint) :
  lastOf (l ++ [p]) = Some p.
Proof.
  induction l as [| a [| b l] IH]; try reflexivity.
  change (lastOf ((a :: b :: l) ++ [p])) with (lastOf ((b :: l) ++ [p])).
  exact IH.
Qed.

(** The position callback, field by field. *)
Lemma onPosition_route (position : GeolocationPosition) (s : State) :
  route (onPosition position s) = route s ++ [newPointOf position].
Proof. unfold onPosition. simpl. now destruct (lastPointRef s). Qed.

Lemma onPosition_lastPointRef (position : GeolocationPosition) (s : State) :
  lastPointRef (onPosition position s) = Some (newPointOf position).
Proof. reflexivity. Qed.

Lemma onPosition_stats (position : GeolocationPosition) (s : State) :
  stats (onPosition position s) =
  match lastPointRef s with
  | Some lastPoint =>
      let newPoint := newPointOf position in
      let elev := Js.orZero (altitude newPoint)
                  - Js.orZero (altitude lastPoint) in
      {| totalDistance := totalDistance (stats s)
                          + Geo.calculateDistance lastPoint newPoint;
         avgSpeed := avgSpeed (stats s);
         maxSpeed := Js.max (maxSpeed (stats s)) (speed newPoint);
         duration := duration (stats s);
         startTime := startTime (stats s);
         elevationGain := if Rlt_dec 0 elev
                          then elevationGain (stats s) + elev
                          else elevationGain (stats s) |}
  | None => stats s
  end.
Proof. unfold onPosition. simpl. now destruct (lastPointRef s). Qed.

Lemma onPosition_frame (position : GeolocationPosition) (s : State) :
  let s' := onPosition position s in
  isRecording s' = isRecording s /\ watches s' = watches s /\
  watchIdRef s' = watchIdRef s /\ intervals s' = intervals s /\
  timerRef s' = timerRef s /\ nextTimerId s' = nextTimerId s.
Proof. unfold onPosition. simpl. now destruct (lastPointRef s). Qed.

(** *** The handlers, field by field *)

Lemma startRecording_fields (now : Z) (s : State) :
  geolocation s = true ->
  let s' := fst (startRecording now s) in
  route s' = [] /\ stats s' = resetStats now /\ isRecording s' = true /\
  lastPointRef s' = lastPointRef s /\
  watches s' = watches s ++ [nextWatchId s].
Proof.
  intros Hg. unfold startRecording. rewrite Hg. simpl. auto.
Qed.

Lemma stopRecording_fields (s : State) :
  let s' := stopRecording s in
  route s' = route s /\ stats s' = stats s /\ isRecording s' = false /\
  lastPointRef s' = None.
Proof.
  unfold stopRecording.
  destruct (watchIdRef s) as [w |]; simpl;
    destruct (timerRef s) as [[| k] |]; simpl; auto.
Qed.

Lemma handleGetAIAnalysis_fields (response : option AIInsight) (s : State) :
  let s' := fst (handleGetAIAnalysis response s) in
  route s' = route s /\ stats s' = stats s.
Proof.
  unfold handleGetAIAnalysis.
  destruct (List.length (route s) <? 5)%nat; [auto |].
  destruct response; simpl; auto.
Qed.

(** No handler writes the [avgSpeed] field. *)
Lemma next_avgSpeed (e : Event) (s : State) :
  avgSpeed (stats s) = 0 -> avgSpeed (stats (next e s)) = 0.
Proof.
  intros H0. destruct e as [now | | position | | | response];
    enter_step.
  - unfold startRecording.
    destruct (geolocation s); simpl; [reflexivity | exact H0].
  - destruct (stopRecording_fields s) as (_ & -> & _). exact H0.
  - unfold dispatchFix.
    apply (fold_left_preserves (fun a => avgSpeed (stats a) = 0));
      [| exact H0].
    intros a _ Ha. rewrite onPosition_stats.
    destruct (lastPointRef a); simpl; exact Ha.
  - exact H0.
  - unfold dispatchTick.
    apply (fold_left_preserves (fun a => avgSpeed (stats a) = 0));
      [| exact H0].
    intros a _ Ha. exact Ha.
  - destruct (handleGetAIAnalysis_fields response s) as (_ & ->). exact H0.
Qed.

Lemma run_avgSpeed (es : list Event) :
  forall s, avgSpeed (stats s) = 0 -> avgSpeed (stats (run es s)) = 0.
Proof.
  induction es as [| e es IH]; intros s H0; simpl; [exact H0 |].
  apply IH. now apply next_avgSpeed.
Qed.

End AppFacts.

(* ================================================================== *)
(** ** The callbacks, whatever the state they run in *)

Section CallbackFacts.

Import App Page Notions.
Open Scope R_scope.

Lemma orZero_numberOrZero (v : option R) : Js.orZero v = numberOrZero v.
Proof. destruct v as [x |]; [apply orZero_Some | reflexivity]. Qed.

Lemma newPointOf_sampleOf (position : GeolocationPosition) :
  newPointOf position = sampleOf position.
Proof.
  unfold newPointOf, sampleOf. now rewrite orZero_numberOrZero.
Qed.

Lemma ingestAll_cons (position : GeolocationPosition)
  (positions : list GeolocationPosition) (s : State) :
  ingestAll (position :: positions) s
  = ingestAll positions (onPosition position s).
Proof. reflexivity. Qed.

(** Elevation gain over a sequence of fixes. *)
Lemma ingestAll_elevationGain (positions : list GeolocationPosition) :
  forall s,
    elevationGain (stats (ingestAll positions s))
    = elevationGain (stats s)
      + climbFrom
          (option_map (fun q => numberOrZero (altitude q)) (lastPointRef s))
          (map (fun position =>
                  numberOrZero (coords_altitude (coords position)))
               positions).
Proof.
  induction positions as [| position positions IH]; intros s.
  - simpl. lra.
  - rewrite ingestAll_cons, IH, onPosition_stats, onPosition_lastPointRef.
    cbn [map climbFrom option_map altitude newPointOf].
    rewrite !orZero_numberOrZero.
    destruct (lastPointRef s) as [q |]; cbn [option_map elevationGain].
    + cbv zeta. cbn [elevationGain altitude newPointOf].
      rewrite !orZero_numberOrZero.
      destruct (Rlt_dec 0 _); lra.
    + lra.
Qed.

(** Top speed over a sequence of fixes. *)
Lemma ingestAll_maxSpeed (positions : list GeolocationPosition) :
  forall s,
    maxSpeed (stats (ingestAll positions s))
    = fold_left Rmax
        (map (fun position => numberOrZero (coords_speed (coords position)))
             (match lastPointRef s with
              | Some _ => positions
              | None => tl positions
              end))
        (maxSpeed (stats s)).
Proof.
  induction positions as [| position positions IH]; intros s.
  - now destruct (lastPointRef s).
  - rewrite ingestAll_cons, IH, onPosition_stats, onPosition_lastPointRef.
    destruct (lastPointRef s) as [q |]; [| reflexivity].
    cbv zeta. cbn [maxSpeed speed newPointOf map fold_left tl].
    now rewrite orZero_numberOrZero.
Qed.

(** A fix handed to every registered watch, a second to every interval. *)
Lemma fold_onPosition (position : GeolocationPosition) (l : list nat) :
  forall s,
    let s' := fold_left (fun s _ => onPosition position s) l s in
    route s' = route s ++ repeat (newPointOf position) (List.length l)
    /\ watches s' = watches s /\ intervals s' = intervals s
    /\ duration (stats s') = duration (stats s)
    /\ (maxSpeed (stats s) <= maxSpeed (stats s'))
    /\ (elevationGain (stats s) <= elevationGain (stats s')).
Proof.
  induction l as [| w l IH]; intros s; simpl.
  - rewrite app_nil_r. repeat split; lra.
  - destruct (IH (onPosition position s)) as (I1 & I2 & I3 & I4 & I5 & I6).
    destruct (onPosition_frame position s) as (_ & Fw & _ & Fi & _).
    rewrite I1, I2, I3, I4, onPosition_route, Fw, Fi, <- app_assoc.
    assert (Hstats :
      duration (stats (onPosition position s)) = duration (stats s)
      /\ maxSpeed (stats s) <= maxSpeed (stats (onPosition position s))
      /\ elevationGain (stats s)
         <= elevationGain (stats (onPosition position s))).
    { rewrite onPosition_stats. destruct (lastPointRef s) as [q |].
      - cbv zeta. cbn [duration maxSpeed elevationGain].
        split; [reflexivity |]. split; [apply Rmax_l |].
        destruct (Rlt_dec 0 _); lra.
      - repeat split; lra. }
    destruct Hstats as (H1 & H2 & H3).
    repeat split; try reflexivity; try assumption; lra.
Qed.

Lemma fold_onTick (l : list nat) :
  forall s,
    let s' := fold_left (fun s _ => onTick s) l s in
    duration (stats s') = (duration (stats s) + List.length l)%nat
    /\ route s' = route s /\ watches s' = watches s
    /\ intervals s' = intervals s
    /\ totalDistance (stats s') = totalDistance (stats s)
    /\ avgSpeed (stats s') = avgSpeed (stats s)
    /\ maxSpeed (stats s') = maxSpeed (stats s)
    /\ elevationGain (stats s') = elevationGain (stats s)
    /\ startTime (stats s') = startTime (stats s).
Proof.
  induction l as [| t l IH]; intros s; simpl.
  - rewrite Nat.add_0_r. repeat split.
  - destruct (IH (onTick s)) as (I1 & I2 & I3 & I4 & I5 & I6 & I7 & I8 & I9).
    rewrite I1, I2, I3, I4, I5, I6, I7, I8, I9. simpl.
    repeat split. lia.
Qed.

(** What the registries keep: only the ids held in the refs are cleared. *)
(** Seconds passing one after the other. *)
Lemma run_ticks (n : nat) :
  forall s,
    let s' := run (repeat Tick n) s in
    duration (stats s')
    = (duration (stats s) + n * List.length (intervals s))%nat
    /\ totalDistance (stats s') = totalDistance (stats s).
Proof.
  induction n as [| n IH]; intros s.
  - simpl. rewrite Nat.add_0_r. auto.
  - cbn [repeat]. rewrite run_cons. destruct (IH (next Tick s)) as (I1 & I2).
    rewrite I1, I2. enter_step. unfold dispatchTick.
    destruct (fold_onTick (intervals s) s) as (T1 & _ & _ & T4 & T5 & _).
    rewrite T1, T4, T5. split; [lia | reflexivity].
Qed.

(** The calls a fix gets after the first find the point of that very fix
    retained, and add nothing. *)
Lemma fold_onPosition_again (position : GeolocationPosition) (l : list nat) :
  forall s,
    lastPointRef s = Some (newPointOf position) ->
    let s' := fold_left (fun s _ => onPosition position s) l s in
    lastPointRef s' = Some (newPointOf position)
    /\ totalDistance (stats s') = totalDistance (stats s)
    /\ elevationGain (stats s') = elevationGain (stats s).
Proof.
  induction l as [| w l IH]; intros s Hl; simpl; [auto |].
  destruct (IH (onPosition position s) (onPosition_lastPointRef position s))
    as (I1 & I2 & I3).
  rewrite I1, I2, I3, onPosition_stats, Hl. cbv zeta.
  cbn [totalDistance elevationGain].
  rewrite calculateDistance_same.
  split; [reflexivity |]. split; [lra |].
  destruct (Rlt_dec 0 _) as [A | _]; [lra | reflexivity].
Qed.

(** A fix handed to one watch or more adds what its first call adds. *)
Lemma dispatchFix_first (position : GeolocationPosition) (s : State) :
  watches s <> [] ->
  let s' := dispatchFix position s in
  lastPointRef s' = Some (newPointOf position)
  /\ totalDistance (stats s') = totalDistance (stats (onPosition position s))
  /\ elevationGain (stats s')
     = elevationGain (stats (onPosition position s))
  /\ watches s' = watches s /\ intervals s' = intervals s
  /\ duration (stats s') = duration (stats s).
Proof.
  intros Hw. unfold dispatchFix.
  destruct (fold_onPosition position (watches s) s)
    as (_ & F2 & F3 & F4 & _).
  split; [| split; [| split; [| auto]]];
    destruct (watches s) as [| w l]; try contradiction; cbn [fold_left];
    apply fold_onPosition_again, onPosition_lastPointRef.
Qed.

(** Elevation gain over a sequence of fixes on the page, whatever the
    number of watches, as long as there is one. *)
Lemma run_fixes_elevationGain (positions : list GeolocationPosition) :
  forall s,
    watches s <> [] ->
    elevationGain (stats (run (map Fix positions) s))
    = elevationGain (stats s)
      + climbFrom
          (option_map (fun q => numberOrZero (altitude q)) (lastPointRef s))
          (map (fun position =>
                  numberOrZero (coords_altitude (coords position)))
               positions).
Proof.
  induction positions as [| position positions IH]; intros s Hw.
  - simpl. lra.
  - cbn [map]. rewrite run_cons. enter_step.
    destruct (dispatchFix_first position s Hw) as (A1 & _ & A3 & A4 & _).
    rewrite IH by (rewrite A4; exact Hw).
    rewrite A1, A3.
    pose proof (ingestAll_elevationGain [position] s) as H1.
    change (ingestAll [position] s) with (onPosition position s) in H1.
    rewrite H1. cbn [option_map map climbFrom altitude newPointOf].
    rewrite ?orZero_numberOrZero. lra.
Qed.

Lemma stopRecording_watches (s : State) :
  watches (stopRecording s)
  = match watchIdRef s with
    | Some id => filter (fun w => negb (w =? id)%nat) (watches s)
    | None => watches s
    end.
Proof.
  unfold stopRecording.
  destruct (watchIdRef s) as [w |]; simpl;
    destruct (timerRef s) as [[| k] |]; reflexivity.
Qed.

Lemma stopRecording_intervals (s : State) :
  intervals (stopRecording s)
  = match timerRef s with
    | Some (S _ as id) => filter (fun t => negb (t =? id)%nat) (intervals s)
    | _ => intervals s
    end.
Proof.
  unfold stopRecording.
  destruct (watchIdRef s) as [w |]; simpl;
    destruct (timerRef s) as [[| k] |]; reflexivity.
Qed.

Lemma stopRecording_watchIdRef (s : State) :
  watchIdRef (stopRecording s) = None.
Proof.
  unfold stopRecording.
  destruct (watchIdRef s) as [w |] eqn:E; simpl;
    destruct (timerRef s) as [[| k] |]; simpl; congruence.
Qed.

Lemma effectCleanup_watches (s : State) :
  watches (effectCleanup s)
  = match watchIdRef s with
    | Some (S _ as id) => filter (fun w => negb (w =? id)%nat) (watches s)
    | _ => watches s
    end.
Proof.
  unfold effectCleanup.
  destruct (watchIdRef s) as [[| w] |]; simpl;
    destruct (timerRef s) as [[| k] |]; reflexivity.
Qed.

Lemma effectCleanup_intervals (s : State) :
  intervals (effectCleanup s)
  = match timerRef s with
    | Some (S _ as id) => filter (fun t => negb (t =? id)%nat) (intervals s)
    | _ => intervals s
    end.
Proof.
  unfold effectCleanup.
  destruct (watchIdRef s) as [[| w] |]; simpl;
    destruct (timerRef s) as [[| k] |]; reflexivity.
Qed.

Lemma effectCleanup_frame (s : State) :
  let s' := effectCleanup s in
  isRecording s' = isRecording s /\ route s' = route s
  /\ stats s' = stats s /\ lastPointRef s' = lastPointRef s
  /\ watchIdRef s' = watchIdRef s /\ timerRef s' = timerRef s
  /\ geolocation s' = geolocation s
  /\ nextWatchId s' = nextWatchId s /\ nextTimerId s' = nextTimerId s.
Proof.
  unfold effectCleanup.
  destruct (watchIdRef s) as [[| w] |] eqn:E1; simpl;
    destruct (timerRef s) as [[| k] |] eqn:E2; simpl;
    rewrite ?E1, ?E2; repeat split.
Qed.

Lemma filter_keeps (l : list nat) (id x : nat) :
  In x l -> x <> id -> In x (filter (fun w => negb (w =? id)%nat) l).
Proof.
  intros Hin Hne. apply filter_In. split; [exact Hin |].
  apply negb_true_iff, Nat.eqb_neq. exact Hne.
Qed.

Lemma filter_fresh (l : list nat) (id : nat) :
  ~ In id l -> filter (fun w => negb (w =? id)%nat) l = l.
Proof.
  intros Hnot. induction l as [| x l IH]; [reflexivity |].
  simpl. destruct (x =? id)%nat eqn:E.
  - apply Nat.eqb_eq in E. subst x. exfalso. apply Hnot. now left.
  - simpl. rewrite IH; [reflexivity |]. intros H. apply Hnot. now right.
Qed.


End CallbackFacts.

(* ================================================================== *)
(** ** The claims *)

Section Claims.

Import App Page Notions.
Open Scope R_scope.

(** C4 (as the code has it): [formatDuration] prints every component with
    two digits and drops the hours, and only the hours, when they are zero;
    so 3661 seconds give "01:01:01", 61 seconds "01:01" and 9 seconds
    "00:09". *)
Theorem C4_formatDuration_pads_and_drops_zero_hours :
  (forall seconds : nat,
     let h := (seconds / 3600)%nat in
     let m := ((seconds mod 3600) / 60)%nat in
     let s := (seconds mod 60)%nat in
     Geo.formatDuration seconds =
     if (h =? 0)%nat
     then (Geo.twoDigits m ++ ":" ++ Geo.twoDigits s)%string
     else (Geo.twoDigits h ++ ":" ++ Geo.twoDigits m ++ ":"
           ++ Geo.twoDigits s)%string)
  /\ Geo.formatDuration 3661 = "01:01:01"%string
  /\ Geo.formatDuration 61 = "01:01"%string
  /\ Geo.formatDuration 9 = "00:09"%string.
Proof.
  split; [| repeat split; vm_compute; reflexivity].
  intros seconds h m s. unfold Geo.formatDuration. fold h m s.
  generalize m s. clear m s. intros m s.
  unfold Js.filteri, Geo.twoDigits. cbn [map Js.filterFrom].
  assert (Hm : forall v : Js.StrOrNum,
             (Js.strictNeqStr v "00" || (0 <? 1)%nat) = true).
  { intros v. apply orb_true_r. }
  assert (Hs : forall v : Js.StrOrNum,
             (Js.strictNeqStr v "00" || (0 <? 2)%nat) = true).
  { intros v. apply orb_true_r. }
  rewrite Hm, Hs.
  destruct (h <? 10)%nat eqn:Hh.
  - apply Nat.ltb_lt in Hh.
    do 10 (destruct h as [| h];
           [destruct (m <? 10)%nat, (s <? 10)%nat; reflexivity |]).
    lia.
  - apply Nat.ltb_ge in Hh.
    destruct h as [| h]; [lia |].
    destruct (m <? 10)%nat, (s <? 10)%nat; reflexivity.
Qed.

(** The claim C4 as the specification words it fails: the code prints
    "01:01:01", "01:01" and "00:09", not "1:01:01", "1:01" and "09". *)
Lemma C4_counterexample :
  ~ (Geo.formatDuration 3661 = "1:01:01"%string
     /\ Geo.formatDuration 61 = "1:01"%string
     /\ Geo.formatDuration 9 = "09"%string).
Proof.
  intros (H & _). vm_compute in H. discriminate H.
Qed.

(** C7: the distance from a point to itself is exactly 0. *)
Theorem C7_distance_of_identical_points_is_zero :
  forall p : RoutePoint, Geo.calculateDistance p p = 0.
Proof. exact calculateDistance_same. Qed.

(** C9: with fewer than 5 points in the route, asking for the analysis
    only raises the local alert: [getAIAnalysis] is not called, and the
    state, so the route and the stats, is left as it was. *)
Theorem C9_short_route_is_rejected_locally :
  forall (s : State) (response : option AIInsight),
    (List.length (route s) < 5)%nat ->
    step (ClickAnalyze response) s
      = (s, [Alert "Ride longer to get meaningful AI insights!"])
    /\ (forall st r,
          ~ In (CallGetAIAnalysis st r) (snd (step (ClickAnalyze response) s)))
    /\ route (next (ClickAnalyze response) s) = route s
    /\ stats (next (ClickAnalyze response) s) = stats s.
Proof.
  intros s response Hlen.
  assert (E : step (ClickAnalyze response) s
              = (s, [Alert "Ride longer to get meaningful AI insights!"])).
  { cbn [step]. unfold handleGetAIAnalysis.
    apply Nat.ltb_lt in Hlen. now rewrite Hlen. }
  unfold next. rewrite E. cbn [fst snd].
  repeat split.
  intros st r [H | []]. discriminate H.
Qed.

Lemma C9_witness :
  (List.length (route (run openRide (initialState true))) < 5)%nat
  /\ step (ClickAnalyze None) (run openRide (initialState true))
     = (run openRide (initialState true),
        [Alert "Ride longer to get meaningful AI insights!"]).
Proof.
  assert (H : (List.length (route (run openRide (initialState true))) < 5)%nat).
  { apply Nat.ltb_lt. reflexivity. }
  split; [exact H |].
  exact (proj1 (C9_short_route_is_rejected_locally
                  (run openRide (initialState true)) None H)).
Defined.

(** C10: whatever the sequence of events, the stored [avgSpeed] field is 0,
    so the average speed [getAIAnalysis] puts in its prompt is 0, in every
    call the analysis handler makes. *)
Theorem C10_stored_avgSpeed_is_always_zero :
  forall (geo : bool) (es : list Event),
    let s := run es (initialState geo) in
    avgSpeed (stats s) = 0
    /\ Gemini.prompt_avgSpeedKmH (Gemini.getAIAnalysis_prompt (stats s) (route s))
       = 0
    /\ forall response,
         Forall (fun eff =>
                   match eff with
                   | CallGetAIAnalysis st r =>
                       Gemini.prompt_avgSpeedKmH
                         (Gemini.getAIAnalysis_prompt st r) = 0
                   | _ => True
                   end)
                (snd (step (ClickAnalyze response) s)).
Proof.
  intros geo es s.
  assert (H0 : avgSpeed (stats s) = 0).
  { apply run_avgSpeed. reflexivity. }
  assert (H1 : Gemini.prompt_avgSpeedKmH
                 (Gemini.getAIAnalysis_prompt (stats s) (route s)) = 0).
  { cbn [Gemini.getAIAnalysis_prompt Gemini.prompt_avgSpeedKmH].
    rewrite H0. ring. }
  repeat split; [exact H0 | exact H1 |].
  intros response. cbn [step]. unfold handleGetAIAnalysis.
  destruct (List.length (route s) <? 5)%nat.
  - repeat constructor.
  - destruct response; cbn [snd]; repeat constructor; exact H1.
Qed.

(** C1 (where the code departs from it): neither callback writes
    [avgSpeed].  In a state with a watch and an interval registered, no
    retained point and zeroed stats, two fixes at different places followed
    by one second or more leave a positive [duration] and a positive
    [totalDistance], the distance between the two fixes, while the stored
    [avgSpeed] is still 0 and so is not [totalDistance / duration]. *)
Theorem C1_callbacks_never_write_avgSpeed :
  forall (s : State) (first second : GeolocationPosition) (n : nat),
    watches s <> [] -> intervals s <> [] ->
    lastPointRef s = None ->
    totalDistance (stats s) = 0 -> duration (stats s) = 0%nat ->
    avgSpeed (stats s) = 0 ->
    0 < Geo.haversineA (sampleOf first) (sampleOf second) ->
    let s' := run (Fix first :: Fix second :: repeat Tick (S n)) s in
    duration (stats s') = (S n * List.length (intervals s))%nat
    /\ (0 < duration (stats s'))%nat
    /\ totalDistance (stats s')
       = Geo.calculateDistance (sampleOf first) (sampleOf second)
    /\ 0 < totalDistance (stats s')
    /\ avgSpeed (stats s') = 0
    /\ avgSpeed (stats s')
       <> totalDistance (stats s') / INR (duration (stats s')).
Proof.
  intros s first second n Hw Hi Hl Hd Hn Ha Hhav s'.
  assert (Havg : avgSpeed (stats s') = 0) by now apply run_avgSpeed.
  unfold s' in *. clear s'. rewrite !run_cons in *.
  replace (next (Fix first) s) with (dispatchFix first s) in * by reflexivity.
  set (s1 := dispatchFix first s) in *.
  replace (next (Fix second) s1) with (dispatchFix second s1) in *
    by reflexivity.
  set (s2 := dispatchFix second s1) in *.
  destruct (dispatchFix_first first s Hw) as (A1 & A2 & _ & A4 & A5 & A6).
  fold s1 in A1, A2, A4, A5, A6.
  assert (Hw1 : watches s1 <> []) by (rewrite A4; exact Hw).
  destruct (dispatchFix_first second s1 Hw1) as (_ & B2 & _ & _ & B5 & B6).
  fold s2 in B2, B5, B6.
  destruct (run_ticks (S n) s2) as (T1 & T2).
  set (s' := run (repeat Tick (S n)) s2) in *.
  rewrite onPosition_stats, Hl in A2.
  rewrite onPosition_stats, A1 in B2. cbv zeta in B2.
  cbn [totalDistance] in B2.
  rewrite !newPointOf_sampleOf in B2.
  pose proof (calculateDistance_pos Hhav) as Hpos.
  assert (Hlen : (0 < List.length (intervals s))%nat).
  { destruct (intervals s); [contradiction | simpl; lia]. }
  assert (Hdur : duration (stats s') = (S n * List.length (intervals s))%nat).
  { rewrite T1, B6, A6, Hn, B5, A5. reflexivity. }
  assert (Hdur0 : (0 < duration (stats s'))%nat) by (rewrite Hdur; lia).
  assert (Htot : totalDistance (stats s')
                 = Geo.calculateDistance (sampleOf first) (sampleOf second)).
  { rewrite T2, B2, A2, Hd. ring. }
  split; [exact Hdur |]. split; [exact Hdur0 |]. split; [exact Htot |].
  split; [rewrite Htot; exact Hpos |]. split; [exact Havg |].
  rewrite Havg, Htot.
  assert (Hq : 0 < Geo.calculateDistance (sampleOf first) (sampleOf second)
                   / INR (duration (stats s'))).
  { apply Rdiv_lt_0_compat; [exact Hpos | now apply lt_0_INR]. }
  lra.
Qed.

Lemma C1_witness :
  let first := fixAt 0 0 (Some 0) None in
  let second := fixAt 0 0.001 (Some 10) None in
  let holds := fun root =>
    let s := overlappingStarts root 1 2 (initialState true) in
    let s' := run (Fix first :: Fix second :: repeat Tick 60) s in
    isRecording s = true
    /\ (0 < duration (stats s'))%nat
    /\ 0 < totalDistance (stats s')
    /\ avgSpeed (stats s') = 0
    /\ avgSpeed (stats s')
       <> totalDistance (stats s') / INR (duration (stats s')) in
  holds LegacyRoot /\ holds ConcurrentRoot.
Proof.
  intros first second holds.
  assert (Hhav : 0 < Geo.haversineA (sampleOf first) (sampleOf second)).
  { unfold Geo.haversineA, first, second.
    cbn [latitude longitude sampleOf fixAt coords coords_latitude
         coords_longitude].
    cbv zeta.
    replace ((0 - 0) * PI / 180 / 2) with 0 by field.
    replace (0 * PI / 180) with 0 by field.
    rewrite sin_0, cos_0.
    assert (Hs : 0 < sin ((0.001 - 0) * PI / 180 / 2)).
    { pose proof PI_RGT_0. apply sin_gt_0; lra. }
    nra. }
  assert (H : forall root, holds root).
  { intros root. unfold holds.
    set (s := overlappingStarts root 1 2 (initialState true)).
    assert (Hw : watches s <> []) by (destruct root; discriminate).
    assert (Hi : intervals s <> []) by (destruct root; discriminate).
    assert (Hl : lastPointRef s = None) by (destruct root; reflexivity).
    assert (Hd : totalDistance (stats s) = 0) by (destruct root; reflexivity).
    assert (Hn : duration (stats s) = 0%nat) by (destruct root; reflexivity).
    assert (Ha : avgSpeed (stats s) = 0) by (destruct root; reflexivity).
    destruct (@C1_callbacks_never_write_avgSpeed s first second 59
                Hw Hi Hl Hd Hn Ha Hhav) as (_ & R2 & _ & R4 & R5 & R6).
    split; [destruct root; reflexivity |].
    split; [exact R2 |]. split; [exact R4 |]. split; [exact R5 | exact R6]. }
  split; apply H.
Defined.







(** C6: for a fix that finds a retained point, the altitude of the fix
    minus that of the retained point, a missing altitude on either counting
    as 0, is added to [elevationGain] when it is strictly positive and
    dropped when it is zero or negative; a fix that finds no retained point
    adds nothing.  Fixes at the altitudes 100, 95, 110, 108, 130, from a
    state with no retained point and no gain, give a gain of 37: when they
    are fed to the callback one after the other, and when the browser hands
    them to a page with one watch or more registered. *)
Theorem C6_callback_adds_positive_altitude_steps_only :
  (forall (s : State) (position : GeolocationPosition)
          (previous : RoutePoint),
     lastPointRef s = Some previous ->
     let delta := match coords_altitude (coords position) with
                  | Some a => a
                  | None => 0
                  end
                  - match altitude previous with
                    | Some a => a
                    | None => 0
                    end in
     let s' := onPosition position s in
     (0 < delta -> elevationGain (stats s') = elevationGain (stats s) + delta)
     /\ (delta <= 0 -> elevationGain (stats s') = elevationGain (stats s)))
  /\ (forall (s : State) (position : GeolocationPosition),
        lastPointRef s = None ->
        elevationGain (stats (onPosition position s))
        = elevationGain (stats s))
  /\ (forall (s : State) (positions : list GeolocationPosition),
        lastPointRef s = None -> elevationGain (stats s) = 0 ->
        map (fun position => coords_altitude (coords position)) positions
        = [Some 100; Some 95; Some 110; Some 108; Some 130] ->
        elevationGain (stats (ingestAll positions s)) = 37
        /\ (watches s <> [] ->
            elevationGain (stats (run (map Fix positions) s)) = 37)).
Proof.
  split; [| split].
  - intros s position previous Hl delta s'. unfold s'.
    rewrite onPosition_stats, Hl. cbv zeta.
    cbn [elevationGain altitude newPointOf].
    rewrite !orZero_numberOrZero. unfold numberOrZero. fold delta.
    destruct (Rlt_dec 0 delta); split; intros; lra.
  - intros s position Hl. now rewrite onPosition_stats, Hl.
  - intros s positions Hl Hg Halt.
    assert (E : elevationGain (stats s)
                + climbFrom
                    (option_map (fun q => numberOrZero (altitude q))
                                (lastPointRef s))
                    (map (fun position =>
                            numberOrZero (coords_altitude (coords position)))
                         positions) = 37).
    { rewrite Hl, Hg.
      rewrite <- (map_map (fun position => coords_altitude (coords position))
                          numberOrZero), Halt.
      cbn [option_map map climbFrom numberOrZero].
      repeat match goal with
             | |- context [Rlt_dec ?a ?b] => destruct (Rlt_dec a b); try lra
             end. }
    split.
    + now rewrite ingestAll_elevationGain.
    + intros Hw. now rewrite run_fixes_elevationGain.
Qed.

Lemma C6_witness :
  let positions := map (fun a => fixAt 48 2 (Some a) None)
                       [100; 95; 110; 108; 130] in
  let holds := fun root =>
    let s := overlappingStarts root 1 2 (initialState true) in
    isRecording s = true /\ watches s <> []
    /\ lastPointRef s = None /\ elevationGain (stats s) = 0
    /\ elevationGain (stats (ingestAll positions s)) = 37
    /\ elevationGain (stats (run (map Fix positions) s)) = 37 in
  holds LegacyRoot /\ holds ConcurrentRoot.
Proof.
  intros positions holds.
  assert (H : forall root, holds root).
  { intros root. unfold holds.
    set (s := overlappingStarts root 1 2 (initialState true)).
    assert (Hw : watches s <> []) by (destruct root; discriminate).
    assert (Hl : lastPointRef s = None) by (destruct root; reflexivity).
    assert (Hg : elevationGain (stats s) = 0) by (destruct root; reflexivity).
    destruct (proj2 (proj2 C6_callback_adds_positive_altitude_steps_only)
                s positions Hl Hg eq_refl) as (R1 & R2).
    split; [destruct root; reflexivity |].
    split; [exact Hw |]. split; [exact Hl |]. split; [exact Hg |].
    split; [exact R1 | exact (R2 Hw)]. }
  split; apply H.
Defined.

End Claims.

(* ================================================================== *)
(** ** The claims that turn on double precision *)

Section ClaimsInDoubles.

Import Floats.PrimFloat.
Open Scope float_scope.

Lemma haversineA_at_eight_degrees (sin cos : float -> float)
  (atan2 : float -> float -> float) :
  GeoDouble.answersAtEightDegrees sin cos atan2 ->
  GeoDouble.haversineA sin cos 8 (-180) (-8) 0 = 0x1.0000000000001p+0.
Proof.
  intros (H1 & H2 & H3 & H4 & _).
  unfold GeoDouble.haversineA. cbv zeta.
  replace (((-8 - 8) * GeoDouble.PI) / 180 / 2)
    with (- GeoDouble.eightDegrees) by (vm_compute; reflexivity).
  replace (((0 - -180) * GeoDouble.PI) / 180 / 2)
    with GeoDouble.quarterTurn by (vm_compute; reflexivity).
  replace ((8 * GeoDouble.PI) / 180)
    with GeoDouble.eightDegrees by (vm_compute; reflexivity).
  replace ((-8 * GeoDouble.PI) / 180)
    with (- GeoDouble.eightDegrees) by (vm_compute; reflexivity).
  rewrite H1, H2, H3, H4. vm_compute. reflexivity.
Qed.

(** C8 (where the code departs from it): [calculateDistance] has no clamp.
    For the points (8, -180) and (-8, 0), with an engine that returns the
    doubles nearest to the sines and cosines involved, the haversine term
    is 1.0000000000000002, above 1; the square root of 1 minus it is NaN,
    and so is the distance returned. *)
Theorem C8_no_clamp_and_NaN_near_the_antipode :
  forall (sin cos : float -> float) (atan2 : float -> float -> float),
    GeoDouble.answersAtEightDegrees sin cos atan2 ->
    let a := GeoDouble.haversineA sin cos 8 (-180) (-8) 0 in
    a = 0x1.0000000000001p+0
    /\ (1 <? a) = true
    /\ sqrt (1 - a) = nan
    /\ GeoDouble.calculateDistance sin cos atan2 8 (-180) (-8) 0 = nan.
Proof.
  intros sin cos atan2 H a.
  pose proof (haversineA_at_eight_degrees H) as Ha. fold a in Ha.
  assert (Hs : sqrt (1 - a) = nan) by (rewrite Ha; vm_compute; reflexivity).
  split; [exact Ha |].
  split; [rewrite Ha; vm_compute; reflexivity |].
  split; [exact Hs |].
  unfold GeoDouble.calculateDistance. cbv zeta. fold a.
  destruct H as (_ & _ & _ & _ & Hnan).
  rewrite Hs, Hnan. vm_compute. reflexivity.
Qed.

Lemma tables_answer_at_eight_degrees :
  GeoDouble.answersAtEightDegrees
    GeoDouble.tableSin GeoDouble.tableCos GeoDouble.tableAtan2.
Proof.
  repeat split; vm_compute; reflexivity.
Defined.

Lemma C8_witness :
  GeoDouble.answersAtEightDegrees
    GeoDouble.tableSin GeoDouble.tableCos GeoDouble.tableAtan2
  /\ GeoDouble.calculateDistance
       GeoDouble.tableSin GeoDouble.tableCos GeoDouble.tableAtan2
       8 (-180) (-8) 0 = nan.
Proof.
  split; [exact tables_answer_at_eight_degrees |].
  exact (proj2 (proj2 (proj2
    (C8_no_clamp_and_NaN_near_the_antipode
       tables_answer_at_eight_degrees)))).
Defined.

(** C5 (where the code departs from it): when the fix at (-8, 0) follows
    the fix at (8, -180), the distance the callback adds is NaN, so the new
    [totalDistance] (line 106), from a total of 0, is NaN: it is not the
    distance between the two fixes, and it is not greater than or equal to
    the total before. *)
Theorem C5_total_is_NaN_after_a_near_antipodal_step :
  forall (sin cos : float -> float) (atan2 : float -> float -> float),
    GeoDouble.answersAtEightDegrees sin cos atan2 ->
    let distance :=
      GeoDouble.calculateDistance sin cos atan2 8 (-180) (-8) 0 in
    GeoDouble.newDist 0 distance = nan
    /\ (0 <=? GeoDouble.newDist 0 distance) = false
    /\ (GeoDouble.newDist 0 distance =? GeoDouble.newDist 0 distance) = false.
Proof.
  intros sin cos atan2 H distance.
  assert (Hd : distance = nan).
  { unfold distance. unfold GeoDouble.calculateDistance. cbv zeta.
    rewrite (haversineA_at_eight_degrees H).
    destruct H as (_ & _ & _ & _ & Hnan).
    replace (sqrt (1 - 0x1.0000000000001p+0)) with nan
      by (vm_compute; reflexivity).
    rewrite Hnan. vm_compute. reflexivity. }
  rewrite Hd. repeat split; vm_compute; reflexivity.
Qed.

Lemma C5_witness :
  GeoDouble.answersAtEightDegrees
    GeoDouble.tableSin GeoDouble.tableCos GeoDouble.tableAtan2
  /\ GeoDouble.newDist 0
       (GeoDouble.calculateDistance
          GeoDouble.tableSin GeoDouble.tableCos GeoDouble.tableAtan2
          8 (-180) (-8) 0) = nan.
Proof.
  split; [exact tables_answer_at_eight_degrees |].
  exact (proj1 (C5_total_is_NaN_after_a_near_antipodal_step
                  tables_answer_at_eight_degrees)).
Defined.

End ClaimsInDoubles.

(* ================================================================== *)
(** ** More about src/utils/geo.ts *)

Section GeoMore.

Open Scope R_scope.

Lemma haversineA_sym (p1 p2 : RoutePoint) :
  Geo.haversineA p1 p2 = Geo.haversineA p2 p1.
Proof.
  unfold Geo.haversineA. cbv zeta.
  replace ((latitude p1 - latitude p2) * PI / 180 / 2)
    with (- ((latitude p2 - latitude p1) * PI / 180 / 2)) by field.
  replace ((longitude p1 - longitude p2) * PI / 180 / 2)
    with (- ((longitude p2 - longitude p1) * PI / 180 / 2)) by field.
  rewrite !sin_neg. ring.
Qed.

(** X1: the distance does not depend on the order of its arguments. *)
Theorem calculateDistance_sym (p1 p2 : RoutePoint) :
  Geo.calculateDistance p1 p2 = Geo.calculateDistance p2 p1.
Proof.
  unfold Geo.calculateDistance. cbv zeta. now rewrite haversineA_sym.
Qed.

Lemma atan2_sin_cos (x : R) :
  0 <= x <= PI / 2 -> Js.atan2 (sin x) (cos x) = x.
Proof.
  intros [H0 H1]. pose proof PI_RGT_0 as HPI. unfold Js.atan2.
  destruct H1 as [Hlt | Heq].
  - assert (Hc : 0 < cos x) by (apply cos_gt_0; lra).
    destruct (Rlt_dec 0 (cos x)) as [_ | N]; [| contradiction].
    change (sin x / cos x) with (tan x).
    apply atan_tan. lra.
  - subst x. rewrite cos_PI2, sin_PI2.
    destruct (Rlt_dec 0 0) as [A | _]; [lra |].
    destruct (Rlt_dec 0 1) as [_ | B]; lra.
Qed.

(** When the haversine term is the squared sine of an angle of the first
    quadrant, the distance is the arc of twice that angle. *)
Lemma calculateDistance_of_sine (p1 p2 : RoutePoint) (x : R) :
  0 <= x <= PI / 2 ->
  Geo.haversineA p1 p2 = sin x * sin x ->
  Geo.calculateDistance p1 p2 = 6371e3 * (2 * x).
Proof.
  intros Hx Ha. unfold Geo.calculateDistance. cbv zeta. rewrite Ha.
  pose proof PI_RGT_0 as HPI.
  assert (Hs : 0 <= sin x) by (apply sin_ge_0; lra).
  assert (Hc : 0 <= cos x) by (apply cos_ge_0; lra).
  rewrite (sqrt_square _ Hs).
  replace (1 - sin x * sin x) with (cos x * cos x).
  - rewrite (sqrt_square _ Hc), (atan2_sin_cos Hx). reflexivity.
  - pose proof (sin2_cos2 x) as P. unfold Rsqr in P. lra.
Qed.

(** X3: along a meridian the distance is the arc between the two latitudes:
    the radius times their difference in radians. *)
Theorem calculateDistance_along_meridian (p1 p2 : RoutePoint) :
  longitude p1 = longitude p2 ->
  0 <= latitude p2 - latitude p1 <= 180 ->
  Geo.calculateDistance p1 p2
  = 6371e3 * ((latitude p2 - latitude p1) * PI / 180).
Proof.
  intros Hlon Hlat. pose proof PI_RGT_0 as HPI.
  rewrite (@calculateDistance_of_sine p1 p2
             ((latitude p2 - latitude p1) * PI / 180 / 2)).
  - field.
  - split; nra.
  - unfold Geo.haversineA. cbv zeta. rewrite Hlon.
    replace ((longitude p2 - longitude p2) * PI / 180 / 2) with 0 by field.
    rewrite sin_0. ring.
Qed.

Lemma calculateDistance_along_meridian_witness :
  let p1 := mkRoutePoint 0 7 0 0 None in
  let p2 := mkRoutePoint 90 7 0 0 None in
  longitude p1 = longitude p2
  /\ 0 <= latitude p2 - latitude p1 <= 180
  /\ Geo.calculateDistance p1 p2 = 6371e3 * ((90 - 0) * PI / 180).
Proof.
  intros p1 p2.
  assert (H1 : longitude p1 = longitude p2) by reflexivity.
  assert (H2 : 0 <= latitude p2 - latitude p1 <= 180).
  { unfold p1, p2. cbn [latitude]. lra. }
  split; [exact H1 |]. split; [exact H2 |].
  exact (calculateDistance_along_meridian p1 p2 H1 H2).
Defined.

(** X4: along the equator the distance is the arc between the two longitudes;
    a thousandth of a degree is 6371000 * 0.001 * PI / 180 metres, about
    111.19. *)
Theorem calculateDistance_along_equator (p1 p2 : RoutePoint) :
  latitude p1 = 0 -> latitude p2 = 0 ->
  0 <= longitude p2 - longitude p1 <= 180 ->
  Geo.calculateDistance p1 p2
  = 6371e3 * ((longitude p2 - longitude p1) * PI / 180).
Proof.
  intros Hl1 Hl2 Hlon. pose proof PI_RGT_0 as HPI.
  rewrite (@calculateDistance_of_sine p1 p2
             ((longitude p2 - longitude p1) * PI / 180 / 2)).
  - field.
  - split; nra.
  - unfold Geo.haversineA. cbv zeta. rewrite Hl1, Hl2.
    replace ((0 - 0) * PI / 180 / 2) with 0 by field.
    replace (0 * PI / 180) with 0 by field.
    rewrite sin_0, cos_0. ring.
Qed.

Lemma calculateDistance_along_equator_witness :
  let p1 := mkRoutePoint 0 0 0 0 (Some 0) in
  let p2 := mkRoutePoint 0 0.001 0 0 (Some 10) in
  latitude p1 = 0 /\ latitude p2 = 0
  /\ 0 <= longitude p2 - longitude p1 <= 180
  /\ Geo.calculateDistance p1 p2 = 6371e3 * ((0.001 - 0) * PI / 180).
Proof.
  intros p1 p2.
  assert (H1 : latitude p1 = 0) by reflexivity.
  assert (H2 : latitude p2 = 0) by reflexivity.
  assert (H3 : 0 <= longitude p2 - longitude p1 <= 180).
  { unfold p1, p2. cbn [longitude]. lra. }
  split; [exact H1 |]. split; [exact H2 |]. split; [exact H3 |].
  exact (calculateDistance_along_equator p1 p2 H1 H2 H3).
Defined.

End GeoMore.

(* ================================================================== *)
(** ** More about [formatDuration] *)

Section FormatMore.

Lemma length_append (s1 s2 : string) :
  String.length (s1 ++ s2) = String.length s1 + String.length s2.
Proof.
  induction s1 as [| c s1 IH]; simpl; [reflexivity | now rewrite IH].
Qed.

Lemma twoDigits_length (v : nat) :
  v < 100 -> String.length (Geo.twoDigits v) = 2.
Proof.
  intros Hv.
  assert (H : forallb (fun v => String.length (Geo.twoDigits v) =? 2)
                      (seq 0 100) = true) by (vm_compute; reflexivity).
  rewrite forallb_forall in H.
  apply Nat.eqb_eq, H, in_seq. lia.
Qed.

(** The three components of [formatDuration], joined as the code does. *)
Lemma formatDuration_cases (seconds : nat) :
  let h := seconds / 3600 in
  let m := (seconds mod 3600) / 60 in
  let s := seconds mod 60 in
  Geo.formatDuration seconds =
  if h =? 0
  then (Geo.twoDigits m ++ ":" ++ Geo.twoDigits s)%string
  else (Geo.twoDigits h ++ ":" ++ Geo.twoDigits m ++ ":"
        ++ Geo.twoDigits s)%string.
Proof.
  intros h m s. unfold Geo.formatDuration. fold h m s.
  generalize m s. clear m s. intros m s.
  unfold Js.filteri, Geo.twoDigits. cbn [map Js.filterFrom].
  rewrite !orb_true_r.
  destruct (h <? 10) eqn:Hh.
  - apply Nat.ltb_lt in Hh.
    do 10 (destruct h as [| h];
           [destruct (m <? 10), (s <? 10); reflexivity |]).
    lia.
  - apply Nat.ltb_ge in Hh.
    destruct h as [| h]; [lia |].
    destruct (m <? 10), (s <? 10); reflexivity.
Qed.

(** X5: below 100 hours the clock has a fixed width: five characters under an
    hour, eight from one hour on. *)
Theorem formatDuration_width (seconds : nat) :
  seconds < 100 * 3600 ->
  String.length (Geo.formatDuration seconds)
  = if seconds <? 3600 then 5 else 8.
Proof.
  intros Hs. rewrite formatDuration_cases. cbv zeta.
  assert (Hh : seconds / 3600 < 100).
  { apply Nat.Div0.div_lt_upper_bound. lia. }
  assert (Hm : (seconds mod 3600) / 60 < 100).
  { apply Nat.Div0.div_lt_upper_bound.
    pose proof (Nat.mod_upper_bound seconds 3600). lia. }
  assert (Hsec : seconds mod 60 < 100).
  { pose proof (Nat.mod_upper_bound seconds 60). lia. }
  destruct (seconds <? 3600) eqn:E.
  - apply Nat.ltb_lt in E. rewrite (Nat.div_small _ _ E). cbn [Nat.eqb].
    rewrite !length_append, !twoDigits_length by assumption. reflexivity.
  - apply Nat.ltb_ge in E.
    assert (H1 : 1 <= seconds / 3600).
    { apply Nat.div_le_lower_bound; lia. }
    destruct (seconds / 3600 =? 0) eqn:E0.
    + apply Nat.eqb_eq in E0. lia.
    + rewrite !length_append, !twoDigits_length by assumption. reflexivity.
Qed.

Lemma formatDuration_width_witness :
  3661 < 100 * 3600 /\ String.length (Geo.formatDuration 3661) = 8.
Proof.
  assert (H : 3661 < 100 * 3600) by lia.
  split; [exact H |].
  exact (formatDuration_width H).
Defined.

End FormatMore.

(* ================================================================== *)
(** ** More about src/services/gemini.ts *)

Section GeminiMore.

Open Scope nat_scope.

(** Filtering on "the index is a multiple of 5" keeps every fifth element,
    [r] being the distance from the first index to the next multiple. *)
Lemma filterFrom_fifth (A : Type) (l : list A) :
  forall i r q k,
    r < 5 -> i + r = 5 * q ->
    nth_error (Js.filterFrom i (fun _ j => j mod 5 =? 0) l) k
    = nth_error l (r + 5 * k).
Proof.
  induction l as [| x l IH]; intros i r q k Hr Hq.
  - cbn [Js.filterFrom]. now rewrite !nth_error_nil.
  - cbn [Js.filterFrom]. destruct r as [| r'].
    + assert (E : i mod 5 = 0).
      { symmetry. apply (Nat.mod_unique i 5 q 0); lia. }
      rewrite E. cbn [Nat.eqb]. destruct k as [| k'].
      * reflexivity.
      * cbn [nth_error].
        rewrite (IH (S i) 4 (S q) k') by lia.
        replace (0 + 5 * S k') with (S (4 + 5 * k')) by lia.
        reflexivity.
    + assert (E : i mod 5 = 4 - r').
      { symmetry. apply (Nat.mod_unique i 5 (q - 1) (4 - r')); lia. }
      assert (N : (i mod 5 =? 0) = false).
      { apply Nat.eqb_neq. lia. }
      rewrite N. rewrite (IH (S i) r' q k) by lia.
      reflexivity.
Qed.

(** X6: the route sent for analysis is every fifth point of the ride, starting
    with the first: its entry [k] carries the latitude and longitude of
    point [5 * k] and its speed in km/h, and it has a fifth as many
    entries, rounded up. *)
Theorem getAIAnalysis_samples_every_fifth_point
  (stats : RideStats) (route : list RoutePoint) :
  let sampled := Gemini.prompt_sampledRoute
                   (Gemini.getAIAnalysis_prompt stats route) in
  (forall k,
     nth_error sampled k
     = option_map (fun p => Gemini.mkSampledPoint
                              (latitude p) (longitude p) (speed p * 3.6)%R)
                  (nth_error route (5 * k)))
  /\ List.length sampled = (List.length route + 4) / 5.
Proof.
  intros sampled.
  assert (Hn : forall k,
             nth_error sampled k
             = option_map (fun p => Gemini.mkSampledPoint
                                      (latitude p) (longitude p)
                                      (speed p * 3.6)%R)
                          (nth_error route (5 * k))).
  { intros k. unfold sampled.
    cbn [Gemini.getAIAnalysis_prompt Gemini.prompt_sampledRoute].
    rewrite nth_error_map. unfold Js.filteri.
    rewrite (@filterFrom_fifth RoutePoint route 0 0 0 k) by lia.
    reflexivity. }
  split; [exact Hn |].
  set (n := List.length sampled).
  assert (Hup : List.length route <= 5 * n).
  { pose proof (Hn n) as H.
    assert (E : nth_error sampled n = None) by (apply nth_error_None; lia).
    rewrite E in H. symmetry in H.
    destruct (nth_error route (5 * n)) eqn:R; [discriminate H |].
    now apply nth_error_None in R. }
  destruct n as [| n'] eqn:En.
  - replace (List.length route) with 0 by lia. reflexivity.
  - assert (Hlow : 5 * n' < List.length route).
    { pose proof (Hn n') as H.
      assert (E : nth_error sampled n' <> None).
      { apply nth_error_Some. fold n in En. lia. }
      apply nth_error_Some. intros R. rewrite R in H. now apply E. }
    apply (Nat.div_unique _ 5 (S n') (List.length route + 4 - 5 * S n'));
      lia.
Qed.

Lemma Forall2_map_right (A B : Type) (P : A -> B -> Prop) (f : A -> B)
  (l : list A) :
  (forall x, P x (f x)) -> Forall2 P l (map f l).
Proof.
  intros H. induction l as [| x l IH]; simpl; constructor; auto.
Qed.

(** X7: the links [findNearbyStops] returns are, in order, one for each
    grounding chunk of the first candidate, and none when any level of the
    response is missing; no link has an empty title or an empty uri, a
    missing or empty one being replaced by "Search Result" or "#" and any
    other kept as it is. *)
Theorem findNearbyStops_links (response : GeminiStops.GenerateContentResponse) :
  let result := GeminiStops.findNearbyStops_result response in
  App.stops_text result = GeminiStops.text response
  /\ Forall (fun link => link_title link <> EmptyString
                         /\ uri link <> EmptyString)
            (App.stops_links result)
  /\ match GeminiStops.firstChunks response with
     | Some chunks =>
         Forall2 (fun chunk link =>
                    link_title link
                    = match GeminiStops.chunkTitle chunk with
                      | Some EmptyString | None => "Search Result"%string
                      | Some t => t
                      end
                    /\ uri link
                       = match GeminiStops.chunkUri chunk with
                         | Some EmptyString | None => "#"%string
                         | Some u => u
                         end)
                 chunks (App.stops_links result)
     | None => App.stops_links result = []
     end.
Proof.
  intros result. unfold result, GeminiStops.findNearbyStops_result.
  cbn [App.stops_text App.stops_links].
  split; [reflexivity |].
  destruct (GeminiStops.firstChunks response) as [chunks |].
  - split.
    + apply Forall_forall. intros link Hin.
      apply in_map_iff in Hin. destruct Hin as (chunk & <- & _).
      cbn [link_title uri]. unfold GeminiStops.orString.
      split.
      * destruct (GeminiStops.chunkTitle chunk) as [[| c t] |]; discriminate.
      * destruct (GeminiStops.chunkUri chunk) as [[| c t] |]; discriminate.
    + apply Forall2_map_right. intros chunk.
      cbn [link_title uri]. unfold GeminiStops.orString.
      destruct (GeminiStops.chunkTitle chunk) as [[| c t] |];
        destruct (GeminiStops.chunkUri chunk) as [[| c' u] |]; auto.
  - split; [constructor | reflexivity].
Qed.

End GeminiMore.

(* ================================================================== *)
(** ** More about the ride in src/App.tsx *)

Section AppMore.

Import App AppStops.
Open Scope R_scope.

Lemma lastOf_None (l : list RoutePoint) : lastOf l = None -> l = [].
Proof.
  induction l as [| a [| b l] IH]; intros H; [reflexivity | discriminate H |].
  change (lastOf (a :: b :: l)) with (lastOf (b :: l)) in H.
  discriminate (IH H).
Qed.

Lemma lastOf_nth_error (l : list RoutePoint) :
  nth_error l (List.length l - 1) = lastOf l.
Proof.
  induction l as [| a [| b l] IH]; try reflexivity.
  change (lastOf (a :: b :: l)) with (lastOf (b :: l)). rewrite <- IH.
  replace (List.length (a :: b :: l) - 1)%nat
    with (S (List.length (b :: l) - 1)) by (simpl; lia).
  reflexivity.
Qed.

(** X18: where the browser has no geolocation nothing ever happens: every
    state the page can reach is the initial one, whatever is clicked and
    whatever the browser delivers, and each press of the play button only
    raises the alert. *)
Theorem without_geolocation_the_page_stays_initial (s : State) :
  reachable false s ->
  s = initialState false
  /\ forall now,
       step (ClickStart now) s
       = (s, [Alert "Geolocation is not supported by your browser."]).
Proof.
  intros Hr.
  assert (E : s = initialState false).
  { induction Hr as [| s e Hr IH Ho]; [reflexivity |].
    subst s.
    destruct e as [now | | position | | | response];
      try reflexivity; discriminate Ho. }
  split; [exact E |]. intros now. subst s. reflexivity.
Qed.

Lemma without_geolocation_the_page_stays_initial_witness :
  reachable false (next (ClickStart 3) (initialState false))
  /\ next (ClickStart 3) (initialState false) = initialState false.
Proof.
  assert (Hr : reachable false (next (ClickStart 3) (initialState false))).
  { apply reachable_step; [apply reachable_init | reflexivity]. }
  split; [exact Hr |].
  exact (proj1 (without_geolocation_the_page_stays_initial Hr)).
Defined.

(** X19: with 5 points or more, asking for the analysis calls
    [getAIAnalysis] exactly once, with the stats and the whole route of the
    moment; the ride is left as it is and the loading flag is down again
    afterwards.  A successful answer becomes the insight shown; a failed
    call keeps the insight that was there, logs the error and alerts. *)
Theorem analysis_request_carries_the_ride
  (s : State) (response : option AIInsight) :
  (5 <= List.length (route s))%nat ->
  let s' := fst (handleGetAIAnalysis response s) in
  let effects := snd (handleGetAIAnalysis response s) in
  route s' = route s /\ stats s' = stats s /\ isLoadingAI s' = false
  /\ match response with
     | Some insight =>
         aiInsight s' = Some insight
         /\ effects = [CallGetAIAnalysis (stats s) (route s)]
     | None =>
         aiInsight s' = aiInsight s
         /\ effects = [CallGetAIAnalysis (stats s) (route s); ConsoleError;
                       Alert "Failed to generate AI insights."]
     end.
Proof.
  intros Hlen s' effects. unfold s', effects, handleGetAIAnalysis.
  assert (E : (List.length (route s) <? 5)%nat = false).
  { apply Nat.ltb_ge. exact Hlen. }
  rewrite E. destruct response; simpl; auto.
Qed.

Lemma analysis_request_carries_the_ride_witness :
  let s := mkState false (repeat (mkRoutePoint 0 0 0 0 None) 5) initialStats
             None None false None None None true [] [] 1 1 in
  (5 <= List.length (route s))%nat
  /\ snd (handleGetAIAnalysis None s)
     = [CallGetAIAnalysis (stats s) (route s); ConsoleError;
        Alert "Failed to generate AI insights."].
Proof.
  intros s.
  assert (H : (5 <= List.length (route s))%nat) by (simpl; lia).
  split; [exact H |].
  exact (proj2 (proj2 (proj2 (proj2
    (analysis_request_carries_the_ride s None H))))).
Defined.

(** X20: with an empty route [handleFindNearby] does nothing at all, not
    even an alert.  Otherwise it calls [findNearbyStops] once, with the
    latitude and longitude of the last point of the route, leaves the route
    and the stats alone and ends with the loading flag down; an answer
    becomes the stops shown, a failure is logged and alerted and keeps the
    stops that were there. *)
Theorem handleFindNearby_asks_about_the_last_point
  (s : StopsState) (response : option GeminiStops.GenerateContentResponse) :
  let s' := fst (handleFindNearby response s) in
  let effects := snd (handleFindNearby response s) in
  match lastOf (route (app s)) with
  | None => route (app s) = [] /\ s' = s /\ effects = []
  | Some last =>
      route (app s') = route (app s) /\ stats (app s') = stats (app s)
      /\ isLoadingStops s' = false
      /\ match response with
         | Some r =>
             nearbyStops (app s')
             = Some (GeminiStops.findNearbyStops_result r)
             /\ effects
                = [CallFindNearbyStops (latitude last) (longitude last)]
         | None =>
             nearbyStops (app s') = nearbyStops (app s)
             /\ effects
                = [CallFindNearbyStops (latitude last) (longitude last);
                   StopsConsoleError;
                   StopsAlert "Failed to find nearby stops."]
         end
  end.
Proof.
  intros s' effects. unfold s', effects, handleFindNearby.
  rewrite lastOf_nth_error.
  destruct (lastOf (route (app s))) as [last |] eqn:Hl.
  - destruct (route (app s)) as [| a l] eqn:Hroute; [discriminate Hl |].
    cbn [List.length Nat.eqb].
    destruct response; simpl; auto.
  - rewrite (lastOf_None _ Hl). simpl. auto.
Qed.

End AppMore.

(* ================================================================== *)
(** ** About src/components/RouteVisualizer.tsx *)

Section VisualizerFacts.

Import RouteVisualizer.
Open Scope R_scope.

Lemma fold_min_le_init (l : list R) : forall a, fold_left Rmin l a <= a.
Proof.
  induction l as [| x l IH]; intros a; simpl; [lra |].
  apply Rle_trans with (Rmin a x); [apply IH | apply Rmin_l].
Qed.

Lemma fold_min_le_elem (l : list R) :
  forall a x, In x l -> fold_left Rmin l a <= x.
Proof.
  induction l as [| y l IH]; intros a x Hin; [destruct Hin |].
  destruct Hin as [-> | Hin]; simpl.
  - apply Rle_trans with (Rmin a x); [apply fold_min_le_init | apply Rmin_r].
  - now apply IH.
Qed.

Lemma fold_max_above_init (l : list R) : forall a, a <= fold_left Rmax l a.
Proof.
  induction l as [| x l IH]; intros a; simpl; [lra |].
  apply Rle_trans with (Rmax a x); [apply Rmax_l | apply IH].
Qed.

Lemma fold_max_above_elem (l : list R) :
  forall a x, In x l -> x <= fold_left Rmax l a.
Proof.
  induction l as [| y l IH]; intros a x Hin; [destruct Hin |].
  destruct Hin as [-> | Hin]; simpl.
  - apply Rle_trans with (Rmax a x); [apply Rmax_r | apply fold_max_above_init].
  - now apply IH.
Qed.

Lemma mathMin_le (l : list R) (x : R) : In x l -> mathMin l <= x.
Proof.
  destruct l as [| a l]; intros Hin; [destruct Hin |].
  destruct Hin as [-> | Hin]; simpl.
  - apply fold_min_le_init.
  - now apply fold_min_le_elem.
Qed.

Lemma mathMax_ge (l : list R) (x : R) : In x l -> x <= mathMax l.
Proof.
  destruct l as [| a l]; intros Hin; [destruct Hin |].
  destruct Hin as [-> | Hin]; simpl.
  - apply fold_max_above_init.
  - now apply fold_max_above_elem.
Qed.

(** The fraction both scales take of the drawing area. *)
Lemma scale_fraction (lo hi v : R) :
  lo <= v <= hi -> 0 <= (v - lo) / orOne (hi - lo) <= 1.
Proof.
  intros [H1 H2]. unfold orOne.
  destruct (Req_dec_T (hi - lo) 0) as [E | N].
  - replace (v - lo) with 0 by lra. unfold Rdiv. rewrite Rmult_0_l. lra.
  - assert (D : 0 < hi - lo) by lra.
    assert (I : 0 < / (hi - lo)) by now apply Rinv_0_lt_compat.
    unfold Rdiv. split; [nra |].
    apply Rmult_le_reg_r with (hi - lo); [exact D |].
    rewrite Rmult_assoc, Rinv_l by exact N. lra.
Qed.

Lemma In_mapFrom (A B : Type) (f : A -> nat -> B) (l : list A) :
  forall i y, In y (mapFrom i f l) -> exists x j, In x l /\ y = f x j.
Proof.
  induction l as [| a l IH]; intros i y Hin; [destruct Hin |].
  destruct Hin as [<- | Hin].
  - exists a, i. split; [now left | reflexivity].
  - destruct (IH _ _ Hin) as (x & j & Hx & ->).
    exists x, j. split; [now right | reflexivity].
Qed.

Lemma length_mapFrom (A B : Type) (f : A -> nat -> B) (l : list A) :
  forall i, List.length (mapFrom i f l) = List.length l.
Proof.
  induction l as [| a l IH]; intros i; simpl; [reflexivity |].
  now rewrite IH.
Qed.

Lemma nth_error_mapFrom (A B : Type) (f : A -> nat -> B) (l : list A) :
  forall i k,
    nth_error (mapFrom i f l) k
    = option_map (fun x => f x (i + k)%nat) (nth_error l k).
Proof.
  induction l as [| a l IH]; intros i k.
  - now destruct k.
  - destruct k as [| k]; cbn [mapFrom nth_error option_map].
    + now rewrite Nat.add_0_r.
    + rewrite IH. now rewrite Nat.add_succ_comm.
Qed.

(** X22: every point of the drawn path lies inside the 300 by 300 view
    box, 20 units or more from each edge, whatever the coordinates of the
    route, also when all its points share a latitude or a longitude. *)
Theorem svgPath_stays_inside_the_padding
  (route : list RoutePoint) (seg : PathSegment) :
  In seg (svgPath route) ->
  20 <= seg_x seg <= 280 /\ 20 <= seg_y seg <= 280.
Proof.
  unfold svgPath.
  destruct (List.length route <? 2)%nat; [intros [] |].
  cbv zeta. intros Hin.
  apply In_mapFrom in Hin. destruct Hin as (p & j & Hp & ->).
  cbn [seg_x seg_y].
  pose proof (@scale_fraction (mathMin (map longitude route))
                (mathMax (map longitude route)) (longitude p)) as Hx.
  pose proof (@scale_fraction (mathMin (map latitude route))
                (mathMax (map latitude route)) (latitude p)) as Hy.
  unfold padding, width, height.
  assert (Lx : In (longitude p) (map longitude route)) by now apply in_map.
  assert (Ly : In (latitude p) (map latitude route)) by now apply in_map.
  specialize (Hx (conj (mathMin_le _ _ Lx) (mathMax_ge _ _ Lx))).
  specialize (Hy (conj (mathMin_le _ _ Ly) (mathMax_ge _ _ Ly))).
  lra.
Qed.

Lemma svgPath_stays_inside_the_padding_witness :
  let route := [mkRoutePoint 48 2 0 0 None; mkRoutePoint 49 3 0 0 None] in
  let seg := nth 1 (svgPath route) (mkSegment M 0 0) in
  In seg (svgPath route)
  /\ 20 <= seg_x seg <= 280 /\ 20 <= seg_y seg <= 280.
Proof.
  intros route seg.
  assert (H : In seg (svgPath route)).
  { apply nth_In. apply Nat.ltb_lt. reflexivity. }
  split; [exact H |].
  exact (svgPath_stays_inside_the_padding route seg H).
Defined.

(** X23: a route of fewer than 2 points draws nothing; a longer one draws
    one command for each of its points, in order, the first a move and
    every other a line. *)
Theorem svgPath_has_a_command_for_each_point (route : list RoutePoint) :
  List.length (svgPath route)
  = (if (List.length route <? 2)%nat then 0%nat else List.length route)
  /\ forall k,
       option_map command (nth_error (svgPath route) k)
       = if (List.length route <? 2)%nat then None
         else option_map (fun _ => if (k =? 0)%nat then M else L)
                         (nth_error route k).
Proof.
  unfold svgPath.
  destruct (List.length route <? 2)%nat.
  - split; [reflexivity |]. intros k. now destruct k.
  - cbv zeta. split.
    + apply length_mapFrom.
    + intros k. rewrite nth_error_mapFrom.
      destruct (nth_error route k); reflexivity.
Qed.

End VisualizerFacts.

(* ================================================================== *)
(** ** More about the callbacks and the registries of src/App.tsx *)

Section CallbackMore.

Import App AppStops Page Notions.
Open Scope R_scope.

(** X8: over any sequence of fixes fed to the position callback,
    [maxSpeed] becomes the greatest of its former value and the speeds of
    the fixes, a missing speed counting as 0; when no point is retained as
    the sequence begins, the speed of its first fix is not counted. *)
Theorem maxSpeed_skips_the_first_fix
  (s : State) (positions : list GeolocationPosition) :
  maxSpeed (stats (ingestAll positions s))
  = fold_left Rmax
      (map (fun position =>
              match coords_speed (coords position) with
              | Some v => v
              | None => 0
              end)
           (match lastPointRef s with
            | Some _ => positions
            | None => tl positions
            end))
      (maxSpeed (stats s)).
Proof. exact (ingestAll_maxSpeed positions s). Qed.

(** X9: over any sequence of fixes fed to the position callback,
    [elevationGain] grows by the sum of the strictly positive altitude
    steps between consecutive fixes, a missing altitude counting as 0; the
    first step is taken from the retained point, and is none when no point
    is retained. *)
Theorem elevationGain_is_the_climb
  (s : State) (positions : list GeolocationPosition) :
  elevationGain (stats (ingestAll positions s))
  = elevationGain (stats s)
    + climbFrom
        (option_map (fun q => match altitude q with
                              | Some a => a
                              | None => 0
                              end)
                    (lastPointRef s))
        (map (fun position =>
                match coords_altitude (coords position) with
                | Some a => a
                | None => 0
                end)
             positions).
Proof. exact (ingestAll_elevationGain positions s). Qed.

(** X11: one second passing adds to [duration] one for each interval
    registered at that moment, none when there is none, and changes nothing
    else: not the route, the other figures or the registries. *)
Theorem tick_moves_only_the_clock (s : State) :
  let s' := next Tick s in
  duration (stats s') = (duration (stats s) + List.length (intervals s))%nat
  /\ route s' = route s
  /\ totalDistance (stats s') = totalDistance (stats s)
  /\ maxSpeed (stats s') = maxSpeed (stats s)
  /\ elevationGain (stats s') = elevationGain (stats s)
  /\ startTime (stats s') = startTime (stats s)
  /\ watches s' = watches s /\ intervals s' = intervals s.
Proof.
  intros s'. unfold s'. enter_step. unfold dispatchTick.
  destruct (fold_onTick (intervals s) s)
    as (I1 & I2 & I3 & I4 & I5 & I6 & I7 & I8 & I9).
  auto 10.
Qed.

Lemma frozen_without_callbacks (es : list Event) :
  forall s, watches s = [] -> intervals s = [] ->
            forallb isSessionEvent es = true -> run es s = s.
Proof.
  induction es as [| e es IH]; intros s Hw Hi Hes; [reflexivity |].
  cbn [forallb] in Hes. apply andb_prop in Hes. destruct Hes as [He Hes].
  rewrite run_cons.
  assert (E : next e s = s).
  { destruct e as [now | | position | | | response];
      try discriminate He; enter_step.
    - unfold dispatchFix. now rewrite Hw.
    - reflexivity.
    - unfold dispatchTick. now rewrite Hi. }
  rewrite E. now apply IH.
Qed.



Lemma startRecording_registries (now : Z) (s : State) :
  geolocation s = true ->
  let s' := fst (startRecording now s) in
  watches s' = watches s ++ [nextWatchId s]
  /\ watchIdRef s' = Some (nextWatchId s)
  /\ intervals s' = intervals s ++ [nextTimerId s]
  /\ timerRef s' = Some (nextTimerId s).
Proof.
  intros Hg. unfold startRecording. rewrite Hg. simpl. auto.
Qed.

(** X15: a start overwrites the refs without clearing what they held, and
    stop and the effect cleanup clear only the ids the refs hold.  So a
    watch registered before a start, its id other than the new one, is
    still registered after the start, after the effect cleanup, and after
    the stop that follows with its cleanup, whether or not the cleanup ran
    after the start; the state is then not recording, and a fix is still
    appended to the route. *)
Theorem a_start_never_clears_an_earlier_watch
  (s : State) (w : nat) (now : Z) :
  geolocation s = true -> In w (watches s) -> w <> nextWatchId s ->
  let started := fst (startRecording now s) in
  let stopped := effectCleanup (stopRecording (effectCleanup started)) in
  watchIdRef started = Some (nextWatchId s)
  /\ In w (watches started)
  /\ In w (watches (effectCleanup started))
  /\ In w (watches (effectCleanup (stopRecording started)))
  /\ In w (watches stopped)
  /\ isRecording stopped = false
  /\ forall position,
       exists more,
         route (dispatchFix position stopped)
         = route stopped ++ sampleOf position :: more.
Proof.
  intros Hg Hin Hne started stopped.
  destruct (startRecording_registries now s Hg) as (Hw & Hr & _).
  fold started in Hw, Hr.
  assert (H1 : In w (watches started)).
  { rewrite Hw. apply in_or_app. now left. }
  assert (H2 : In w (watches (effectCleanup started))).
  { rewrite effectCleanup_watches, Hr.
    destruct (nextWatchId s) as [| k]; [exact H1 |].
    now apply filter_keeps. }
  assert (H3 : In w (watches (effectCleanup (stopRecording started)))).
  { rewrite effectCleanup_watches, stopRecording_watchIdRef.
    rewrite stopRecording_watches, Hr. now apply filter_keeps. }
  assert (H4 : In w (watches stopped)).
  { unfold stopped.
    rewrite effectCleanup_watches, stopRecording_watchIdRef.
    rewrite stopRecording_watches.
    destruct (effectCleanup_frame started) as (_ & _ & _ & _ & -> & _).
    rewrite Hr. now apply filter_keeps. }
  assert (H5 : isRecording stopped = false).
  { unfold stopped.
    destruct (effectCleanup_frame (stopRecording (effectCleanup started)))
      as (-> & _).
    apply stopRecording_fields. }
  repeat (split; [assumption |]).
  intros position. unfold dispatchFix.
  destruct (fold_onPosition position (watches stopped) stopped) as (E & _).
  rewrite E, newPointOf_sampleOf.
  destruct (watches stopped) as [| x l]; [destruct H4 |].
  exists (repeat (sampleOf position) (List.length l)). reflexivity.
Qed.

Lemma a_start_never_clears_an_earlier_watch_witness :
  let s := fst (startRecording 1 (initialState true)) in
  geolocation s = true /\ In 1%nat (watches s) /\ 1%nat <> nextWatchId s
  /\ In 1%nat
       (watches (effectCleanup
                   (stopRecording
                      (effectCleanup (fst (startRecording 2 s)))))).
Proof.
  intros s.
  assert (Hg : geolocation s = true) by reflexivity.
  assert (Hin : In 1%nat (watches s)) by (left; reflexivity).
  assert (Hne : 1%nat <> nextWatchId s) by discriminate.
  split; [exact Hg |]. split; [exact Hin |]. split; [exact Hne |].
  exact (proj1 (proj2 (proj2 (proj2 (proj2
    (@a_start_never_clears_an_earlier_watch s 1%nat 2 Hg Hin Hne)))))).
Defined.

(** X16: neither a fix, nor a failed read, nor a tick ever lowers
    [maxSpeed], [elevationGain] or [duration], or removes a point from the
    route, whatever the state and however many watches and intervals are
    registered. *)
Theorem the_callbacks_never_lower_the_figures (s : State) (e : Event) :
  isSessionEvent e = true ->
  let s' := next e s in
  maxSpeed (stats s) <= maxSpeed (stats s')
  /\ elevationGain (stats s) <= elevationGain (stats s')
  /\ (duration (stats s) <= duration (stats s'))%nat
  /\ exists more, route s' = route s ++ more.
Proof.
  intros He s'. unfold s'.
  destruct e as [now | | position | | | response];
    try discriminate He; enter_step.
  - unfold dispatchFix.
    destruct (fold_onPosition position (watches s) s)
      as (I1 & _ & _ & I4 & I5 & I6).
    repeat split; try assumption; [lia | eexists; exact I1].
  - repeat split; try lra; [lia | exists []; now rewrite app_nil_r].
  - unfold dispatchTick.
    destruct (fold_onTick (intervals s) s)
      as (I1 & I2 & _ & _ & _ & _ & I7 & I8 & _).
    rewrite I7, I8. repeat split; try lra; [lia |].
    exists []. now rewrite app_nil_r.
Qed.

Lemma the_callbacks_never_lower_the_figures_witness :
  let s := overlappingStarts ConcurrentRoot 1 2 (initialState true) in
  isSessionEvent Tick = true
  /\ (duration (stats s) <= duration (stats (next Tick s)))%nat.
Proof.
  intros s. split; [reflexivity |].
  exact (proj1 (proj2 (proj2
    (@the_callbacks_never_lower_the_figures s Tick eq_refl)))).
Defined.

(** X17: the route and the clock count once per registered callback:
    over any sequence of fixes, failed reads and ticks, each fix is
    appended to the route, in order of arrival, once for every watch
    registered, and [duration] grows by the number of ticks times the
    number of intervals registered. *)
Theorem fixes_and_ticks_count_once_per_callback
  (s : State) (es : list Event) :
  forallb isSessionEvent es = true ->
  route (run es s)
  = route s
    ++ flat_map (fun position =>
                   repeat (sampleOf position) (List.length (watches s)))
                (fixes es)
  /\ duration (stats (run es s))
     = (duration (stats s) + ticks es * List.length (intervals s))%nat.
Proof.
  revert s. induction es as [| e es IH]; intros s Hes.
  - simpl. rewrite app_nil_r, Nat.add_0_r. auto.
  - cbn [forallb] in Hes. apply andb_prop in Hes. destruct Hes as [He Hes].
    rewrite run_cons. destruct (IH (next e s) Hes) as (I1 & I2).
    rewrite I1, I2.
    destruct e as [now | | position | | | response];
      try discriminate He; enter_step.
    + unfold dispatchFix.
      destruct (fold_onPosition position (watches s) s)
        as (F1 & F2 & F3 & F4 & _).
      rewrite F1, F2, F3, F4, newPointOf_sampleOf, <- app_assoc.
      split; reflexivity.
    + split; reflexivity.
    + unfold dispatchTick.
      destruct (fold_onTick (intervals s) s) as (T1 & T2 & T3 & T4 & _).
      rewrite T1, T2, T3, T4. cbn [fixes ticks].
      split; [reflexivity | lia].
Qed.

Lemma fixes_and_ticks_count_once_per_callback_witness :
  let s := overlappingStarts LegacyRoot 1 2 (initialState true) in
  let es := [Tick; Fix (fixAt 0 0 None None); Tick; FixError; Tick] in
  forallb isSessionEvent es = true
  /\ duration (stats (run es s)) = 6%nat
  /\ List.length (route (run es s)) = 2%nat.
Proof.
  intros s es.
  assert (H : forallb isSessionEvent es = true) by reflexivity.
  destruct (@fixes_and_ticks_count_once_per_callback s es H) as (H1 & H2).
  split; [exact H |]. split; [exact H2 |].
  rewrite H1. reflexivity.
Defined.

(** X21: right after the position callback has run on a fix, the current
    speed the page shows is the speed of that fix times 3.6, and 0 when the
    browser gives no speed. *)
Theorem current_speed_is_that_of_the_last_fix
  (s : State) (position : GeolocationPosition) :
  currentSpeedKmH (onPosition position s)
  = Some (match coords_speed (coords position) with
          | Some v => v
          | None => 0
          end * 3.6).
Proof.
  unfold currentSpeedKmH.
  rewrite lastOf_nth_error, onPosition_route, lastOf_snoc.
  rewrite length_app. cbn [List.length].
  replace (0 <? List.length (route s) + 1)%nat with true.
  - rewrite newPointOf_sampleOf. reflexivity.
  - symmetry. apply Nat.ltb_lt. lia.
Qed.

(** X24: when the cleanup of the effect on [isRecording] runs after the
    continuation of a start has assigned the refs, as it does when the
    updates of the continuation are batched, it unregisters the watch and
    the interval that start has just registered: the page is recording with
    the registries as they were before the start, and, if they were empty,
    no fix and no tick changes anything. *)
Theorem effect_cleanup_undoes_a_start (s : State) (now : Z) :
  geolocation s = true ->
  (1 <= nextWatchId s)%nat -> (1 <= nextTimerId s)%nat ->
  ~ In (nextWatchId s) (watches s) -> ~ In (nextTimerId s) (intervals s) ->
  let s' := effectCleanup (fst (startRecording now s)) in
  isRecording s' = true
  /\ watches s' = watches s /\ intervals s' = intervals s
  /\ watchIdRef s' = Some (nextWatchId s)
  /\ timerRef s' = Some (nextTimerId s)
  /\ (watches s = [] -> intervals s = [] ->
      forall es, forallb isSessionEvent es = true -> run es s' = s').
Proof.
  intros Hg Hw1 Ht1 Hfw Hft s'.
  destruct (startRecording_registries now s Hg) as (Hw & Hr & Hi & Htr).
  destruct (startRecording_fields now s Hg) as (_ & _ & Hrec & _).
  destruct (effectCleanup_frame (fst (startRecording now s)))
    as (F1 & _ & _ & _ & F5 & F6 & _).
  fold s' in F1, F5, F6.
  assert (Ew : watches s' = watches s).
  { unfold s'. rewrite effectCleanup_watches, Hr, Hw.
    destruct (nextWatchId s) as [| k] eqn:E; [lia |].
    rewrite filter_app, (@filter_fresh _ _ Hfw). simpl.
    rewrite Nat.eqb_refl. simpl. apply app_nil_r. }
  assert (Ei : intervals s' = intervals s).
  { unfold s'. rewrite effectCleanup_intervals, Htr, Hi.
    destruct (nextTimerId s) as [| k] eqn:E; [lia |].
    rewrite filter_app, (@filter_fresh _ _ Hft). simpl.
    rewrite Nat.eqb_refl. simpl. apply app_nil_r. }
  split; [congruence |]. split; [exact Ew |]. split; [exact Ei |].
  split; [congruence |]. split; [congruence |].
  intros H1 H2 es Hes. apply frozen_without_callbacks; congruence.
Qed.

Lemma effect_cleanup_undoes_a_start_witness :
  let s := initialState true in
  let s' := effectCleanup (fst (startRecording 0 s)) in
  isRecording s' = true /\ watches s' = [] /\ intervals s' = []
  /\ run [Fix (fixAt 0 0 None None); Tick; Tick] s' = s'.
Proof.
  intros s s'.
  assert (H1 : (1 <= nextWatchId s)%nat) by (simpl; lia).
  assert (H2 : (1 <= nextTimerId s)%nat) by (simpl; lia).
  assert (H3 : ~ In (nextWatchId s) (watches s)) by (intros []).
  assert (H4 : ~ In (nextTimerId s) (intervals s)) by (intros []).
  destruct (@effect_cleanup_undoes_a_start s 0 eq_refl H1 H2 H3 H4)
    as (R1 & R2 & R3 & _ & _ & R6).
  split; [exact R1 |]. split; [exact R2 |]. split; [exact R3 |].
  exact (R6 eq_refl eq_refl [Fix (fixAt 0 0 None None); Tick; Tick] eq_refl).
Defined.

Lemma asin_nonneg (x : R) : 0 <= x <= 1 -> 0 <= asin x.
Proof.
  intros [H0 H1].
  destruct (Rle_lt_dec 0 (asin x)) as [H | H]; [exact H |].
  pose proof (asin_bound x) as [Hlo _]. pose proof PI_RGT_0 as HPI.
  assert (Hs : sin (asin x) < 0) by (apply sin_lt_0_var; lra).
  rewrite sin_asin in Hs by lra. lra.
Qed.

(** What [calculateDistance] computes is the great-circle distance. *)
Lemma calculateDistance_greatCircle (p1 p2 : RoutePoint) :
  Geo.calculateDistance p1 p2
  = greatCircle (latitude p1) (longitude p1) (latitude p2) (longitude p2).
Proof.
  pose proof (haversineA_bounds p1 p2) as [Ha0 Ha1].
  assert (E : hav (radians (latitude p2) - radians (latitude p1))
              + cos (radians (latitude p1)) * cos (radians (latitude p2))
                * hav (radians (longitude p2) - radians (longitude p1))
              = Geo.haversineA p1 p2).
  { unfold hav, radians, Geo.haversineA. cbv zeta.
    replace ((latitude p2 * PI / 180 - latitude p1 * PI / 180) / 2)
      with ((latitude p2 - latitude p1) * PI / 180 / 2) by field.
    replace ((longitude p2 * PI / 180 - longitude p1 * PI / 180) / 2)
      with ((longitude p2 - longitude p1) * PI / 180 / 2) by field.
    ring. }
  unfold greatCircle. rewrite E.
  unfold Geo.calculateDistance. cbv zeta.
  set (a := Geo.haversineA p1 p2) in *.
  assert (Hr : 0 <= sqrt a <= 1).
  { split; [apply sqrt_pos |]. rewrite <- sqrt_1. now apply sqrt_le_1_alt. }
  set (x := asin (sqrt a)).
  assert (Hsin : sin x = sqrt a) by (apply sin_asin; lra).
  assert (Hcos : cos x = sqrt (1 - a)).
  { unfold x. rewrite cos_asin by lra. now rewrite Rsqr_sqrt. }
  assert (Hx : 0 <= x <= PI / 2).
  { split; [now apply asin_nonneg | apply asin_bound]. }
  rewrite <- Hsin, <- Hcos, (atan2_sin_cos Hx). field.
Qed.

Lemma ingestAll_totalDistance (positions : list GeolocationPosition) :
  forall s,
    totalDistance (stats (ingestAll positions s))
    = totalDistance (stats s)
      + pathFrom (option_map placeOfPoint (lastPointRef s))
                 (map placeOfFix positions).
Proof.
  induction positions as [| position positions IH]; intros s.
  - simpl. lra.
  - rewrite ingestAll_cons, IH, onPosition_stats, onPosition_lastPointRef.
    cbn [map pathFrom option_map].
    destruct (lastPointRef s) as [q |]; cbn [option_map].
    + cbv zeta. cbn [totalDistance].
      rewrite calculateDistance_greatCircle.
      unfold placeOfPoint, placeOfFix, newPointOf.
      cbn [latitude longitude fst snd]. lra.
    + unfold placeOfPoint, placeOfFix, newPointOf.
      cbn [latitude longitude]. lra.
Qed.

(** X25: over the real-number reading of the numbers, a sequence of
    fixes fed to the position callback adds to [totalDistance] the sum of
    the great-circle distances between consecutive fixes, on a sphere of
    radius 6371000 m, the first taken from the retained point and none when
    no point is retained. *)
Theorem totalDistance_adds_the_great_circle_path
  (s : State) (positions : list GeolocationPosition) :
  totalDistance (stats (ingestAll positions s))
  = totalDistance (stats s)
    + pathFrom
        (option_map (fun q => (latitude q, longitude q)) (lastPointRef s))
        (map (fun position =>
                (coords_latitude (coords position),
                 coords_longitude (coords position)))
             positions).
Proof. exact (ingestAll_totalDistance positions s). Qed.

End CallbackMore.
